(** * Tail events of a density: [tail_events_distribution_graphs.py]

    A shallow embedding of the plotting utility and the properties of its
    specification.

    The Python functions are dynamically typed: [calculate_tails] and
    [calculate_xrange] run on any number that has [-], [+] and [*].  They are
    embedded once, over the interface [PyNum], and read at its instances:

    - [float], IEEE 754 binary64 with round to nearest even, which is what
      Python's [float], NumPy's [float64] and SciPy's results are (the
      docstrings say "a float");
    - [Q], exact rational arithmetic, the idealisation in which the
      specification speaks ("for all mu in R");
    - [Q] with a rounding after every operation, which stands between the
      two: binary64 seen from exact arithmetic.

    NumPy and SciPy compute in binary64 whatever they are handed, so what is
    proved of the grid, of the density values and of the figure is proved
    for [float], or for every instance at once ([sampler_grid_exact] alone
    is about the idealisation, and says so).

    SciPy, NumPy and Matplotlib are not part of the repository.  The frozen
    distributions of [scipy.stats] are taken as a parameter, [numpy.linspace]
    is transcribed from NumPy's implementation, and Matplotlib is modelled as
    the store of figures that [pyplot] keeps, each call recording what it was
    asked to draw; what Matplotlib checks of its arguments while drawing is
    not modelled. *)

From Stdlib Require Import ZArith QArith Qround Floats SpecFloat Lia Lqa.
From stdpp Require Import base option list gmap strings pretty.

(** ** Numbers *)

(** What the code asks of its numbers: the literals it writes ([3], [4], [0]
    and, as [12 / 10], [1.2]), the four operations, and the comparisons [<] and
    [==]. *)
Class PyNum (A : Type) := {
  of_int : Z -> A;
  py_add : A -> A -> A;
  py_sub : A -> A -> A;
  py_mul : A -> A -> A;
  py_div : A -> A -> A;
  py_lt : A -> A -> bool;
  py_eq : A -> A -> bool
}.

Declare Scope py_scope.
Delimit Scope py_scope with py.
Infix "+" := py_add : py_scope.
Infix "-" := py_sub : py_scope.
Infix "*" := py_mul : py_scope.
Infix "/" := py_div : py_scope.
Infix "<?" := py_lt : py_scope.
Infix "=?" := py_eq : py_scope.
Notation "x >? y" := (py_lt y x) (only parsing) : py_scope.

(** An integer literal of the code, as a number. *)
Abbreviation lit := of_int.

(** Exact arithmetic.  Division is [Qdiv]; the code never divides by zero
    (the only division, in [linspace], is guarded by [div > 0]). *)
#[export] Instance Q_PyNum : PyNum Q := {|
  of_int := inject_Z;
  py_add := Qplus;
  py_sub := Qminus;
  py_mul := Qmult;
  py_div := Qdiv;
  py_lt := fun x y => negb (Qle_bool y x);
  py_eq := Qeq_bool
|}.

(** An integer as a binary64 number, rounded to nearest even as Python's
    [float(i)] does. *)
Definition float_of_Z (z : Z) : float :=
  SF2Prim (binary_normalize prec emax z 0 false).

#[export] Instance float_PyNum : PyNum float := {|
  of_int := float_of_Z;
  py_add := PrimFloat.add;
  py_sub := PrimFloat.sub;
  py_mul := PrimFloat.mul;
  py_div := PrimFloat.div;
  py_lt := PrimFloat.ltb;
  py_eq := PrimFloat.eqb
|}.

(** Arithmetic that rounds: every literal and every operation gives the
    exact result passed through [rnd].  With a monotone [rnd] that keeps [0]
    this is what binary64 does while nothing overflows; with the identity it
    is [Q_PyNum]. Comparisons are exact. *)
Definition Rounded_PyNum (rnd : Q -> Q) : PyNum Q := {|
  of_int := λ z, rnd (inject_Z z);
  py_add := λ x y, rnd (x + y)%Q;
  py_sub := λ x y, rnd (x - y)%Q;
  py_mul := λ x y, rnd (x * y)%Q;
  py_div := λ x y, rnd (x / y)%Q;
  py_lt := λ x y, negb (Qle_bool y x);
  py_eq := Qeq_bool
|}.

(** A coarse rounding to run [Rounded_PyNum] with: down to an integer. *)
Definition round_down (q : Q) : Q := inject_Z (Qfloor q).

(** [<] is a strict order: it holds of exact numbers and of binary64
    numbers alike (a NaN compares with nothing). *)
Class PyOrder (A : Type) `{PyNum A} : Prop := {
  py_lt_irrefl : forall x : A, (x <? x)%py = false;
  py_lt_trans : forall x y z : A,
    (x <? y)%py = true -> (y <? z)%py = true -> (x <? z)%py = true
}.

(** ** The two calculators *)

Section Calculators.
Context {A : Type} `{PyNum A}.
Local Open Scope py_scope.

(** [return mean - 3 * std, mean + 3 * std] *)
Definition calculate_tails (mean std : A) : A * A :=
  (mean - lit 3 * std, mean + lit 3 * std).

(** [return mean - 4 * std, mean + 4 * std] *)
Definition calculate_xrange (mean std : A) : A * A :=
  (mean - lit 4 * std, mean + lit 4 * std).
End Calculators.

(** ** Exceptions *)

(** A raised exception: its class and its message.  A computation that can
    raise returns [exn + A], [inl] for the exception. *)
Record exn := Exn { exn_class : string; exn_msg : string }.

Definition AssertionError (msg : string) : exn := Exn "AssertionError" msg.
Definition ValueError (msg : string) : exn := Exn "ValueError" msg.

(** ** NumPy, and the builtin [max] *)

Section NumPy.
Context {A : Type} `{PyNum A}.
Local Open Scope py_scope.

(** [numpy.arange(0, num)] as numbers of the result type. *)
Definition arange (num : Z) : list A := of_int <$> seqZ 0 num.

(** [numpy.linspace(start, stop, num)] with its defaults ([endpoint=True]),
    after [numpy/_core/function_base.py]:
<<
    if num < 0: raise ValueError("Number of samples, %s, must be non-negative." % num)
    div = num - 1
    delta = stop - start
    y = arange(0, num)
    if div > 0:
        step = delta / div
        if step == 0: y /= div; y = y * delta
        else:         y = y * step
    else:
        y = y * delta
    y += start
    if num > 1: y[-1] = stop
>>
    (its conversion [asanyarray(start) * 1.0] of the end points to floating
    point leaves a float as it is and is not repeated here). *)
Definition linspace (start stop : A) (num : Z) : exn + list A :=
  if (num <? 0)%Z then
    inl (ValueError ("Number of samples, " +:+ pretty num +:+ ", must be non-negative."))
  else
    let div := (num - 1)%Z in
    let delta := stop - start in
    let y := arange num in
    let y :=
      if (0 <? div)%Z then
        let step := delta / lit div in
        if step =? lit 0 then (λ i, i / lit div * delta) <$> y
        else (λ i, i * step) <$> y
      else (λ i, i * delta) <$> y in
    let y := (λ v, v + start) <$> y in
    inr (if (1 <? num)%Z then <[Z.to_nat (num - 1) := stop]> y else y).

(** Python's builtin [max] over a sequence: the first item is kept until a
    later one compares greater; an empty sequence raises. *)
Definition py_max (l : list A) : exn + A :=
  match l with
  | [] => inl (ValueError "max() arg is an empty sequence")
  | v :: l => inr (foldl (λ m v, if v >? m then v else m) v l)
  end.
End NumPy.

(** ** SciPy *)

(** The four generators of [scipy.stats] the code names. *)
Inductive rv_continuous := norm | uniform | laplace | expon.

(** A frozen distribution, by the three methods the code calls on it:
    [dist.mean()], [dist.std()] and [dist.pdf(x)] at one point ([pdf] of an
    array maps over it). *)
Record rv_frozen (A : Type) := RvFrozen {
  rv_mean : A;
  rv_std : A;
  rv_pdf : A -> A
}.
Arguments RvFrozen {A}.
Arguments rv_mean {A}.
Arguments rv_std {A}.
Arguments rv_pdf {A}.

(** Keyword arguments, [**params]. *)
Abbreviation kwargs A := (gmap string A).

(** A stand-in for [scipy.stats] that computes, to run the model on: every
    generator is a location-scale family with mean [loc] (default [0]),
    standard deviation [scale] (default [1]) and a rational bump for a
    density; any other keyword raises, as SciPy's argument parser does. *)
Definition toy_frozen {A} `{PyNum A} (loc scale : A) : rv_frozen A :=
  RvFrozen loc scale (λ x, lit 1 / (lit 1 + (x - loc) * (x - loc)))%py.

Definition toy_stats {A} `{PyNum A} (gen : rv_continuous) (params : kwargs A)
    : exn + rv_frozen A :=
  if bool_decide (dom params ⊆ ({[ "loc"; "scale" ]} : gset string)) then
    inr (toy_frozen (default (lit 0) (params !! "loc")) (default (lit 1) (params !! "scale")))
  else inl (Exn "TypeError" "_parse_args() got an unexpected keyword argument").

(** ** Matplotlib *)

(** Matplotlib is embedded by what its calls record on the axes. Its own
    checks of what it is handed are left out: a colour string it cannot read
    makes the real [fill_between] raise, and a limit that is NaN or infinite
    makes the real [ylim] raise, where the functions below go on. A call that
    succeeds in Python succeeds here, with the same axes; the other way round
    holds when those two checks pass. *)

(** What [fill_between(x, y1, y2, where=..., facecolor=..., interpolate=...)]
    adds to an axes. [poly_where = None] is a call without [where]: the whole
    curve is filled. *)
Record PolyCollection (A : Type) := Poly {
  poly_x : list A;
  poly_y1 : A;
  poly_y2 : list A;
  poly_where : option (list bool);
  poly_facecolor : string;
  poly_interpolate : bool
}.
Arguments Poly {A}.
Arguments poly_x {A}.
Arguments poly_y1 {A}.
Arguments poly_y2 {A}.
Arguments poly_where {A}.
Arguments poly_facecolor {A}.
Arguments poly_interpolate {A}.

(** What [axvline(x=..., color=..., linestyle=..., linewidth=...)] adds. *)
Record Line2D (A : Type) := Line {
  line_x : A;
  line_color : string;
  line_linestyle : string;
  line_linewidth : Z
}.
Arguments Line {A}.
Arguments line_x {A}.
Arguments line_color {A}.
Arguments line_linestyle {A}.
Arguments line_linewidth {A}.

Record Text := MkText { text_str : string; text_fontsize : Z }.

(** An axes.  [None] is Matplotlib's default: no title, automatic ticks,
    automatic limits. Collections and lines are in drawing order. *)
Record Axes (A : Type) := MkAxes {
  collections : list (PolyCollection A);
  lines : list (Line2D A);
  ax_title : option Text;
  ax_xlabel : option Text;
  ax_ylabel : option Text;
  xtick_label_fontsize : option Z;
  yticks : option (list A);
  ylim : option (A * A)
}.
Arguments MkAxes {A}.
Arguments collections {A}.
Arguments lines {A}.
Arguments ax_title {A}.
Arguments ax_xlabel {A}.
Arguments ax_ylabel {A}.
Arguments xtick_label_fontsize {A}.
Arguments yticks {A}.
Arguments ylim {A}.

Definition empty_axes {A} : Axes A := MkAxes [] [] None None None None None None.

(** A figure with the one axes of [subplots(1, 1)]; [figsize = None] is the
    default size. *)
Record Figure (A : Type) := MkFigure { figsize : option (Z * Z); fig_axes : Axes A }.
Arguments MkFigure {A}.
Arguments figsize {A}.
Arguments fig_axes {A}.

(** [pyplot]'s registry of open figures, in order of creation; the current
    figure is the last one.  A figure or axes object held by the program is
    its position in the registry: [fig] and [ax] of one [subplots] call are
    the same position. *)
Abbreviation pyplot A := (list (Figure A)).
Abbreviation handle := nat.

(** A computation that reads and updates the registry and may raise.  When it
    raises, the registry is the one reached at that point: nothing is rolled
    back. *)
Definition Plt (A B : Type) : Type := pyplot A -> (exn + B) * pyplot A.

Section Registry.
Context {A : Type}.

#[export] Instance plt_ret : MRet (Plt A) := λ B b st, (inr b, st).

#[export] Instance plt_bind : MBind (Plt A) := λ B C f m st,
  match m st with
  | (inl e, st') => (inl e, st')
  | (inr b, st') => f b st'
  end.

(** A step that does not touch the registry. *)
Definition plt_lift {B} (r : exn + B) : Plt A B := λ st, (r, st).

(** [assert cond, msg] *)
Definition py_assert (cond : bool) (msg : string) : Plt A () :=
  plt_lift (if cond then inr () else inl (AssertionError msg)).

(** [for v in l: body(v)] *)
Fixpoint py_for {B} (l : list B) (body : B -> Plt A ()) : Plt A () :=
  match l with
  | [] => mret ()
  | v :: l => body v;; py_for l body
  end.

(** [plt.subplots(1, 1, figsize=size)]: a new figure, which becomes the
    current one. *)
Definition plt_subplots (size : Z * Z) : Plt A (handle * handle) :=
  λ st, (inr (length st, length st), st ++ [MkFigure (Some size) empty_axes]).

(** [plt.gca()]: the axes of the current figure; a figure is made when
    there is none. *)
Definition plt_gca : Plt A handle :=
  λ st, match st with
        | [] => (inr 0, [MkFigure None empty_axes])
        | _ => (inr (length st - 1), st)
        end.

(** A method of the axes object [ax] that updates it in place. *)
Definition ax_method (ax : handle) (f : Axes A -> Axes A) : Plt A () :=
  λ st, (inr (), alter (λ fig, MkFigure (figsize fig) (f (fig_axes fig))) ax st).

Definition add_collection (c : PolyCollection A) (a : Axes A) : Axes A :=
  MkAxes (collections a ++ [c]) (lines a) (ax_title a) (ax_xlabel a) (ax_ylabel a)
         (xtick_label_fontsize a) (yticks a) (ylim a).
Definition add_line (l : Line2D A) (a : Axes A) : Axes A :=
  MkAxes (collections a) (lines a ++ [l]) (ax_title a) (ax_xlabel a) (ax_ylabel a)
         (xtick_label_fontsize a) (yticks a) (ylim a).
Definition set_title (t : Text) (a : Axes A) : Axes A :=
  MkAxes (collections a) (lines a) (Some t) (ax_xlabel a) (ax_ylabel a)
         (xtick_label_fontsize a) (yticks a) (ylim a).
Definition set_xlabel (t : Text) (a : Axes A) : Axes A :=
  MkAxes (collections a) (lines a) (ax_title a) (Some t) (ax_ylabel a)
         (xtick_label_fontsize a) (yticks a) (ylim a).
Definition set_ylabel (t : Text) (a : Axes A) : Axes A :=
  MkAxes (collections a) (lines a) (ax_title a) (ax_xlabel a) (Some t)
         (xtick_label_fontsize a) (yticks a) (ylim a).
Definition set_xtick_label_fontsize (s : Z) (a : Axes A) : Axes A :=
  MkAxes (collections a) (lines a) (ax_title a) (ax_xlabel a) (ax_ylabel a)
         (Some s) (yticks a) (ylim a).
Definition set_yticks (t : list A) (a : Axes A) : Axes A :=
  MkAxes (collections a) (lines a) (ax_title a) (ax_xlabel a) (ax_ylabel a)
         (xtick_label_fontsize a) (Some t) (ylim a).
Definition set_ylim (bottom top : A) (a : Axes A) : Axes A :=
  MkAxes (collections a) (lines a) (ax_title a) (ax_xlabel a) (ax_ylabel a)
         (xtick_label_fontsize a) (yticks a) (Some (bottom, top)).

(** [ax.fill_between(x, y1, y2, where=..., facecolor=..., interpolate=...)] *)
Definition ax_fill_between (ax : handle) (x : list A) (y1 : A) (y2 : list A)
    (where_ : option (list bool)) (facecolor : string) (interpolate : bool) : Plt A () :=
  ax_method ax (add_collection (Poly x y1 y2 where_ facecolor interpolate)).

(** [for tick in ax.xaxis.get_major_ticks(): tick.label.set_fontsize(s)] *)
Definition ax_set_xtick_label_fontsize (ax : handle) (s : Z) : Plt A () :=
  ax_method ax (set_xtick_label_fontsize s).

(** [ax.set_yticks(ticks)] *)
Definition ax_set_yticks (ax : handle) (ticks : list A) : Plt A () :=
  ax_method ax (set_yticks ticks).

(** The functions of [pyplot] act on the current axes. *)
Definition plt_title (s : string) (fontsize : Z) : Plt A () :=
  ax ← plt_gca; ax_method ax (set_title (MkText s fontsize)).
Definition plt_xlabel (s : string) (fontsize : Z) : Plt A () :=
  ax ← plt_gca; ax_method ax (set_xlabel (MkText s fontsize)).
Definition plt_ylabel (s : string) (fontsize : Z) : Plt A () :=
  ax ← plt_gca; ax_method ax (set_ylabel (MkText s fontsize)).
Definition plt_axvline (x : A) (color linestyle : string) (linewidth : Z) : Plt A () :=
  ax ← plt_gca; ax_method ax (add_line (Line x color linestyle linewidth)).
Definition plt_ylim (bottom top : A) : Plt A () :=
  ax ← plt_gca; ax_method ax (set_ylim bottom top).
End Registry.

(** ** The plot *)

(** The dictionary [distributions] of [plot_tail_events]. *)
Definition distributions : gmap string rv_continuous :=
  {[ "normal" := norm; "uniform" := uniform; "Laplace" := laplace; "exponential" := expon ]}.

(** The message of the assertion; the line continuation inside the literal
    keeps the indentation of the second line. *)
Definition assert_message : string :=
  "Please specify a valid value for 'distribution'.         Valid values are 'normal', 'uniform', 'Laplace', and 'exponential'.".

(** [d[k]] on a dictionary. *)
Definition getitem {V} (d : gmap string V) (k : string) : exn + V :=
  match d !! k with
  | Some v => inr v
  | None => inl (Exn "KeyError" k)
  end.

Section Plot.
Context {A : Type} `{PyNum A}.
Local Open Scope py_scope.

(** [scipy.stats]: calling a generator with keyword arguments gives a
    frozen distribution or raises. *)
Variable stats : rv_continuous -> kwargs A -> exn + rv_frozen A.

(** [plot_tail_events(distribution, n=100, tail_color="#ff0000",
    center_color="#e6ffff", **params)], lines 28-102. It returns the handles
    [(fig, ax)]. *)
Definition plot_tail_events (distribution : string) (n : Z)
    (tail_color center_color : string) (params : kwargs A) : Plt A (handle * handle) :=
  py_assert (bool_decide (distribution ∈ dom distributions)) assert_message;;
  gen ← plt_lift (getitem distributions distribution);
  dist ← plt_lift (stats gen params);
  let mean := rv_mean dist in
  let std := rv_std dist in
  let '(x_min, x_max) := calculate_xrange mean std in
  x ← plt_lift (linspace x_min x_max n);
  let y := rv_pdf dist <$> x in
  let tails := calculate_tails mean std in
  '(fig, ax) ← plt_subplots (9, 6)%Z;
  ax_fill_between ax x (lit 0) y None center_color true;;
  ax_fill_between ax x (lit 0) y (Some ((λ v, v <? tails.1) <$> x)) tail_color true;;
  ax_fill_between ax x (lit 0) y (Some ((λ v, v >? tails.2) <$> x)) tail_color true;;
  plt_title ("Tail events for " +:+ distribution +:+ " distribution") 16;;
  plt_xlabel "x" 14;;
  plt_ylabel "f(x)" 14;;
  ax_set_xtick_label_fontsize ax 14;;
  ax_set_yticks ax [];;
  py_for (zip [tails.1; tails.2; mean] ["-"; "-"; "--"])
    (λ tail, plt_axvline tail.1 "black" tail.2 1);;
  top ← plt_lift (py_max y);
  plt_ylim (lit 0) (lit 12 / lit 10 * top);;
  mret (fig, ax).
End Plot.

(** ** The command line *)

(** What the script acts on when it is run: the figures of [pyplot], the
    lines printed, and the files [savefig] was asked to write, each with the
    name it was given and the figure that went into it. *)
Record World (A : Type) := MkWorld {
  figures : pyplot A;
  stdout : list string;
  saved : list (string * Figure A)
}.
Arguments MkWorld {A}.
Arguments figures {A}.
Arguments stdout {A}.
Arguments saved {A}.

(** A computation of the script; as for [Plt], an exception keeps what was
    done before it. *)
Definition Prog (A B : Type) : Type := World A -> (exn + B) * World A.

(** [l[i]] on a list. *)
Definition list_getitem {V} (l : list V) (i : nat) : exn + V :=
  match l !! i with
  | Some v => inr v
  | None => inl (Exn "IndexError" "list index out of range")
  end.

Section Script.
Context {A : Type} `{PyNum A}.
Variable stats : rv_continuous -> kwargs A -> exn + rv_frozen A.

#[export] Instance prog_ret : MRet (Prog A) := λ B b w, (inr b, w).

#[export] Instance prog_bind : MBind (Prog A) := λ B C f m w,
  match m w with
  | (inl e, w') => (inl e, w')
  | (inr b, w') => f b w'
  end.

(** A step that touches nothing. *)
Definition prog_lift {B} (r : exn + B) : Prog A B := λ w, (r, w).

(** A computation over the figures, run in the world. *)
Definition with_pyplot {B} (m : Plt A B) : Prog A B :=
  λ w, let '(r, st) := m (figures w) in (r, MkWorld st (stdout w) (saved w)).

(** [print(s)] *)
Definition py_print (s : string) : Prog A () :=
  λ w, (inr (), MkWorld (figures w) (stdout w ++ [s]) (saved w)).

(** [plt.savefig(fname)]: the current figure goes into the file; a figure is
    made when there is none. The name is recorded as given (Matplotlib adds
    the extension of its default format to a name that has none). *)
Definition plt_savefig (fname : string) : Prog A () :=
  λ w, let fig := default (MkFigure None empty_axes) (last (figures w)) in
       let st := match figures w with [] => [fig] | st => st end in
       (inr (), MkWorld st (stdout w) (saved w ++ [(fname, fig)])).

(** Lines 104-108, the block under [if __name__ == '__main__'], with
    [sys.argv] for argument. *)
Definition main (argv : list string) : Prog A () :=
  distribution ← prog_lift (list_getitem argv 1);
  py_print ("Creating plot for " +:+ distribution +:+ " distribution.");;
  '(fix_, ax) ← with_pyplot
      (plot_tail_events stats distribution 100 "#ff0000" "#e6ffff" ∅);
  plt_savefig distribution.
End Script.


(** ** Reading the plot function

    Names for the parts of [plot_tail_events] that the properties speak of.
    [plot_tail_events_run] below shows that the function is made of them. *)

(** Lines 62-65, the name part: the assertion, then the lookup. *)
Definition resolve (distribution : string) : exn + rv_continuous :=
  if bool_decide (distribution ∈ dom distributions)
  then getitem distributions distribution
  else inl (AssertionError assert_message).

Section Sampler.
Context {A : Type} `{PyNum A}.

(** Lines 75-76, the density sampling step: the grid and the density on it. *)
Definition sample_density (dist : rv_frozen A) (x_min x_max : A) (n : Z)
    : exn + (list A * list A) :=
  match linspace x_min x_max n with
  | inl e => inl e
  | inr x => inr (x, rv_pdf dist <$> x)
  end.
End Sampler.

Section Drawing.
Context {A : Type} `{PyNum A}.
Local Open Scope py_scope.

(** The three fills of lines 85-87, in drawing order. *)
Definition fills (tail_color center_color : string) (tails : A * A) (x y : list A)
    : list (PolyCollection A) :=
  [ Poly x (lit 0) y None center_color true;
    Poly x (lit 0) y (Some ((λ v, v <? tails.1) <$> x)) tail_color true;
    Poly x (lit 0) y (Some ((λ v, v >? tails.2) <$> x)) tail_color true ].

(** The axes as lines 85-98 leave it, before the limits of line 100. *)
Definition drawn (distribution tail_color center_color : string)
    (mean : A) (tails : A * A) (x y : list A) : Axes A :=
  MkAxes (fills tail_color center_color tails x y)
         [ Line tails.1 "black" "-" 1; Line tails.2 "black" "-" 1;
           Line mean "black" "--" 1 ]
         (Some (MkText ("Tail events for " +:+ distribution +:+ " distribution") 16))
         (Some (MkText "x" 14)) (Some (MkText "f(x)" 14))
         (Some 14%Z) (Some []) None.

(** Whether a fill covers the sample at position [i]. *)
Definition covers (c : PolyCollection A) (i : nat) : bool :=
  match poly_where c with
  | None => true
  | Some mask => default false (mask !! i)
  end.

(** Fills are painted one over the other: the fill seen at a sample is the
    last one drawn that covers it. [top_fill] gives its position in drawing
    order. *)
Fixpoint top_fill_from (k : nat) (cs : list (PolyCollection A)) (i : nat) : option nat :=
  match cs with
  | [] => None
  | c :: cs =>
    match top_fill_from (S k) cs i with
    | Some j => Some j
    | None => if covers c i then Some k else None
    end
  end.
Definition top_fill : list (PolyCollection A) -> nat -> option nat := top_fill_from 0.
End Drawing.

(** The positions of the three fills of [fills]: the regions of the plot. *)
Definition center_region : nat := 0.
Definition left_tail : nat := 1.
Definition right_tail : nat := 2.

(** The axes behind a handle. *)
Definition axes_of {A} (st : pyplot A) (ax : handle) : option (Axes A) :=
  fig_axes <$> st !! ax.

(** What a caller sees of a call: the exception, or the axes it was handed. *)
Definition outcome {A} (r : (exn + handle * handle) * pyplot A) : exn + option (Axes A) :=
  match r.1 with
  | inl e => inl e
  | inr (_, ax) => inr (axes_of r.2 ax)
  end.

(** The sampled sequences [(x, y)] as the axes holds them (every fill is
    given the same two). *)
Definition sampled_xy {A} (a : Axes A) : option (list A * list A) :=
  (λ c, (poly_x c, poly_y2 c)) <$> head (collections a).

(** The colour seen at a sample: the face colour of the fill on top. *)
Definition seen_color {A} (cs : list (PolyCollection A)) (i : nat) : option string :=
  top_fill cs i ≫= λ k, poly_facecolor <$> cs !! k.

(** The evenly spaced grid of [n] points over [[x_min, x_max]], in exact
    arithmetic: the spacing, and the point at position [i]. *)
Definition grid_step (x_min x_max : Q) (n : Z) : Q :=
  ((x_max - x_min) / inject_Z (n - 1))%Q.
Definition grid_point (x_min x_max : Q) (n : Z) (i : nat) : Q :=
  (x_min + inject_Z (Z.of_nat i) * grid_step x_min x_max n)%Q.

(** * Facts *)

(** ** The registry *)

Section Registry_facts.
Context {A : Type}.
Implicit Types (st : pyplot A) (a : Axes A).

Lemma ax_method_newest st s a f :
  ax_method (length st) f (st ++ [MkFigure s a]) = (inr (), st ++ [MkFigure s (f a)]).
Proof.
  unfold ax_method. f_equal.
  rewrite alter_app_r_alt by lia. by rewrite Nat.sub_diag.
Qed.

Lemma plt_gca_newest st fig : plt_gca (st ++ [fig]) = (inr (length st), st ++ [fig]).
Proof.
  unfold plt_gca. destruct (st ++ [fig]) eqn:E.
  - by destruct st.
  - rewrite <- E, length_app. simpl. do 2 f_equal. lia.
Qed.

Lemma plt_bind_run {B C} (m : Plt A B) (f : B -> Plt A C) st :
  (m ≫= f) st = match m st with
                | (inl e, st') => (inl e, st')
                | (inr b, st') => f b st'
                end.
Proof. reflexivity. Qed.

Lemma plt_method_newest st s a f :
  (ax ← plt_gca; ax_method ax f) (st ++ [MkFigure s a])
  = (inr (), st ++ [MkFigure s (f a)]).
Proof. by rewrite plt_bind_run, plt_gca_newest, ax_method_newest. Qed.

Lemma axes_of_newest st s a : axes_of (st ++ [MkFigure s a]) (length st) = Some a.
Proof. unfold axes_of. by rewrite list_lookup_middle. Qed.

Lemma axes_of_older st fig i : i < length st -> axes_of (st ++ [fig]) i = axes_of st i.
Proof. intros. unfold axes_of. by rewrite lookup_app_l. Qed.
End Registry_facts.

Lemma dom_distributions :
  dom distributions = ({[ "normal"; "uniform"; "Laplace"; "exponential" ]} : gset string).
Proof.
  unfold distributions. rewrite !dom_insert_L, dom_singleton_L. set_solver.
Qed.

Lemma elem_of_dom_distributions (distribution : string) :
  distribution ∈ dom distributions <->
  distribution = "normal" ∨ distribution = "uniform" ∨
  distribution = "Laplace" ∨ distribution = "exponential".
Proof. rewrite dom_distributions, !elem_of_union, !elem_of_singleton. tauto. Qed.

Lemma getitem_distributions :
  getitem distributions "normal" = inr norm ∧
  getitem distributions "uniform" = inr uniform ∧
  getitem distributions "Laplace" = inr laplace ∧
  getitem distributions "exponential" = inr expon.
Proof. vm_compute. tauto. Qed.

Lemma resolve_inr distribution gen :
  resolve distribution = inr gen <->
  (distribution = "normal" ∧ gen = norm) ∨ (distribution = "uniform" ∧ gen = uniform) ∨
  (distribution = "Laplace" ∧ gen = laplace) ∨ (distribution = "exponential" ∧ gen = expon).
Proof.
  destruct getitem_distributions as (Hn & Hu & Hl & He).
  unfold resolve. case_bool_decide as Hd; rewrite elem_of_dom_distributions in Hd.
  - destruct Hd as [-> | [-> | [-> | ->]]];
      rewrite ?Hn, ?Hu, ?Hl, ?He;
      (split; [intros [= <-]; tauto |
               intros [[? ->] | [[? ->] | [[? ->] | [? ->]]]]; done]).
  - split; [done|]. intros Hc. exfalso. apply Hd. tauto.
Qed.

Lemma resolve_inl distribution e :
  resolve distribution = inl e <->
  e = AssertionError assert_message ∧
  ¬ (distribution = "normal" ∨ distribution = "uniform" ∨
     distribution = "Laplace" ∨ distribution = "exponential").
Proof.
  unfold resolve. case_bool_decide as Hd; rewrite elem_of_dom_distributions in Hd.
  - split; [|tauto].
    destruct getitem_distributions as (Hn & Hu & Hl & He).
    destruct Hd as [-> | [-> | [-> | ->]]];
      rewrite ?Hn, ?Hu, ?Hl, ?He; discriminate.
  - split; [by intros [= <-] | by intros [-> _]].
Qed.

Section Plot_facts.
Context {A : Type} `{PyNum A}.
Variable stats : rv_continuous -> kwargs A -> exn + rv_frozen A.
Local Open Scope py_scope.

(** The whole of [plot_tail_events], stage by stage: where it can raise,
    and the registry it leaves in each case. *)
Lemma plot_tail_events_run distribution n tail_color center_color params st :
  plot_tail_events stats distribution n tail_color center_color params st =
  match resolve distribution with
  | inl e => (inl e, st)
  | inr gen =>
    match stats gen params with
    | inl e => (inl e, st)
    | inr dist =>
      let mean := rv_mean dist in
      let std := rv_std dist in
      let dom := calculate_xrange mean std in
      match sample_density dist dom.1 dom.2 n with
      | inl e => (inl e, st)
      | inr (x, y) =>
        let a := drawn distribution tail_color center_color mean
                       (calculate_tails mean std) x y in
        match py_max y with
        | inl e => (inl e, st ++ [MkFigure (Some (9, 6)%Z) a])
        | inr top =>
          (inr (length st, length st),
           st ++ [MkFigure (Some (9, 6)%Z) (set_ylim (lit 0) (lit 12 / lit 10 * top) a)])
        end
      end
    end
  end.
Proof.
  unfold plot_tail_events, resolve, py_assert, plt_lift.
  rewrite plt_bind_run. case_bool_decide as Hd; [|done].
  rewrite plt_bind_run.
  destruct (getitem distributions distribution) as [e|gen]; [done|].
  rewrite plt_bind_run.
  destruct (stats gen params) as [e|dist]; [done|]. cbn zeta.
  unfold sample_density, calculate_xrange; cbn [fst snd].
  rewrite plt_bind_run.
  destruct (linspace _ _ n) as [e|x]; [done|].
  rewrite plt_bind_run. unfold plt_subplots at 1.
  unfold ax_fill_between, ax_set_xtick_label_fontsize, ax_set_yticks,
    plt_title, plt_xlabel, plt_ylabel, plt_axvline, plt_ylim.
  cbn [zip zip_with py_for].
  repeat (first [rewrite plt_method_newest | rewrite ax_method_newest
                | rewrite plt_bind_run]; cbv beta iota).
  unfold mret, plt_ret.
  destruct (py_max _) as [e|top]; [reflexivity|].
  rewrite plt_bind_run; cbv beta iota.
  rewrite plt_bind_run, plt_method_newest. reflexivity.
Qed.
End Plot_facts.

(** ** The grid of [linspace] *)

Section Linspace.
Context {A : Type} `{PyNum A}.

Lemma length_arange n : length (arange (A:=A) n) = Z.to_nat n.
Proof. unfold arange. by rewrite length_fmap, length_seqZ. Qed.

Lemma arange_lookup n i :
  (i < Z.to_nat n)%nat -> arange (A:=A) n !! i = Some (lit (Z.of_nat i)).
Proof.
  intros Hi. unfold arange. rewrite list_lookup_fmap, lookup_seqZ_lt by lia. done.
Qed.

Lemma linspace_inl start stop n e : linspace start stop n = inl e -> (n < 0)%Z.
Proof. unfold linspace. case_match; [lia|done]. Qed.

Lemma linspace_length start stop n xs :
  linspace start stop n = inr xs -> (0 <= n)%Z ∧ length xs = Z.to_nat n.
Proof.
  unfold linspace. case_match eqn:En; [done|]. intros [= <-]. split; [lia|].
  repeat case_match; rewrite ?length_insert, ?length_fmap; apply length_arange.
Qed.

(** The last point is [stop] itself, in any arithmetic: it is stored, not
    computed. *)
Lemma linspace_last start stop n xs :
  (2 <= n)%Z -> linspace start stop n = inr xs -> last xs = Some stop.
Proof.
  intros Hn Hl. destruct (linspace_length _ _ _ _ Hl) as [_ Hlen].
  revert Hl. unfold linspace. case_match; [done|].
  case_match eqn:E1; [|lia]. intros [= <-].
  rewrite last_lookup, length_insert.
  rewrite length_insert in Hlen.
  rewrite Hlen. replace (pred (Z.to_nat n)) with (Z.to_nat (n - 1)) by lia.
  apply list_lookup_insert_eq. lia.
Qed.

(** The points before the last are computed, each from its position: so
    many steps from [start], or, when the step has vanished, that share of
    the way to [stop]. *)
Lemma linspace_lookup start stop n xs i :
  (2 <= n)%Z -> linspace start stop n = inr xs -> (i < Z.to_nat n - 1)%nat ->
  xs !! i = Some (if ((stop - start) / lit (n - 1) =? lit 0)%py
                  then (lit (Z.of_nat i) / lit (n - 1) * (stop - start) + start)%py
                  else (lit (Z.of_nat i) * ((stop - start) / lit (n - 1)) + start)%py).
Proof.
  intros Hn Hl Hi. revert Hl. unfold linspace.
  destruct (Z.ltb_spec n 0) as [?|_]; [lia|].
  destruct (Z.ltb_spec 0 (n - 1)) as [_|?]; [|lia].
  destruct (Z.ltb_spec 1 n) as [_|?]; [|lia].
  intros [= <-]. rewrite list_lookup_insert_ne by lia.
  case_match; by rewrite !list_lookup_fmap, arange_lookup by lia.
Qed.
End Linspace.

Section Linspace_exact.
Local Open Scope Q_scope.

Lemma inject_Z_pred_nonzero n : (2 <= n)%Z -> ~ inject_Z (n - 1) == 0.
Proof. intros Hn Hq. unfold Qeq in Hq. simpl in Hq. lia. Qed.

Lemma arange_lookup_Q n i :
  (i < Z.to_nat n)%nat -> arange (A:=Q) n !! i = Some (inject_Z (Z.of_nat i)).
Proof.
  intros Hi. unfold arange. rewrite list_lookup_fmap, lookup_seqZ_lt by lia. done.
Qed.

(** In exact arithmetic every point of [linspace] is the grid point. *)
Lemma linspace_Q_lookup a b n xs i :
  (2 <= n)%Z -> linspace a b n = inr xs -> (i < Z.to_nat n)%nat ->
  exists v, xs !! i = Some v ∧ v == grid_point a b n i.
Proof.
  intros Hn Hl Hi. pose proof (inject_Z_pred_nonzero n Hn) as Hd.
  revert Hl. unfold linspace.
  destruct (Z.ltb_spec n 0) as [?|_]; [lia|].
  destruct (Z.ltb_spec 0 (n - 1)) as [_|?]; [|lia].
  destruct (Z.ltb_spec 1 n) as [_|?]; [|lia].
  intros [= <-].
  destruct (decide (i = Z.to_nat (n - 1))) as [->|Hne].
  - exists b. split.
    + apply list_lookup_insert_eq.
      case_match; rewrite !length_fmap, length_arange; lia.
    + unfold grid_point, grid_step. rewrite Z2Nat.id by lia. field. done.
  - rewrite list_lookup_insert_ne by done.
    unfold grid_point, grid_step.
    case_match; rewrite !list_lookup_fmap, arange_lookup_Q by done; simpl;
      eexists; (split; [done|]); field; done.
Qed.

Lemma grid_step_pos x_min x_max n :
  (2 <= n)%Z -> x_min < x_max -> 0 < grid_step x_min x_max n.
Proof.
  intros Hn Hlt. unfold grid_step. apply Qlt_shift_div_l.
  - change 0 with (inject_Z 0). rewrite <- Zlt_Qlt. lia.
  - lra.
Qed.

Lemma grid_point_S x_min x_max n i :
  grid_point x_min x_max n (S i) == grid_point x_min x_max n i + grid_step x_min x_max n.
Proof.
  unfold grid_point. rewrite Nat2Z.inj_succ, <- Z.add_1_r, inject_Z_plus.
  change (inject_Z 1) with 1. ring.
Qed.

End Linspace_exact.

(** ** Order and zero *)

Section Max.
Context {A : Type} `{PyOrder A}.
Local Open Scope py_scope.


End Max.

Lemma Q_lt_iff (x y : Q) : (x <? y)%py = true <-> (x < y)%Q.
Proof.
  simpl. rewrite negb_true_iff, <- not_true_iff_false, Qle_bool_iff.
  split; [apply Qnot_le_lt | apply Qlt_not_le].
Qed.

#[export] Instance Q_PyOrder : PyOrder Q.
Proof.
  split.
  - intros x. apply not_true_iff_false. rewrite Q_lt_iff. apply Qlt_irrefl.
  - intros x y z. rewrite !Q_lt_iff. apply Qlt_trans.
Qed.

Lemma round_down_mono (a b : Q) : (a <= b)%Q -> (round_down a <= round_down b)%Q.
Proof. intros Hab. unfold round_down. rewrite <- Zle_Qle. by apply Qfloor_resp_le. Qed.

(** Binary64, through the specification of the primitive operations. *)
Lemma SFltb_irrefl x : SFltb x x = false.
Proof.
  unfold SFltb, SFcompare.
  destruct x as [s|s| |s m e]; try done; try (by destruct s).
  change (IntDef.Z.compare e e) with (Z.compare e e).
  change (PosDef.Pos.compare_cont Eq m m) with (Pos.compare m m).
  rewrite Z.compare_refl, Pos.compare_refl. by destruct s.
Qed.

Lemma SFltb_trans x y z : SFltb x y = true -> SFltb y z = true -> SFltb x z = true.
Proof.
  unfold SFltb, SFcompare.
  destruct x as [sx|sx| |sx mx ex], y as [sy|sy| |sy my ey], z as [sz|sz| |sz mz ez];
    try discriminate; try (by destruct sx, sy, sz).
  change (PosDef.Pos.compare_cont Eq) with Pos.compare.
  change IntDef.Z.compare with Z.compare.
  destruct sx, sy, sz; try done;
    destruct (Z.compare_spec ex ey), (Z.compare_spec ey ez), (Z.compare_spec ex ez);
    try done; try lia;
    destruct (Pos.compare_spec mx my), (Pos.compare_spec my mz), (Pos.compare_spec mx mz);
    simpl; try done; try lia.
Qed.

Lemma ltb_irrefl (x : float) : (x <? x)%float = false.
Proof. rewrite ltb_spec. apply SFltb_irrefl. Qed.

Lemma ltb_trans (x y z : float) :
  (x <? y)%float = true -> (y <? z)%float = true -> (x <? z)%float = true.
Proof. rewrite !ltb_spec. apply SFltb_trans. Qed.

(* zero laws *)
Lemma eqb_zero_inv (z : float) : (z =? 0)%float = true -> exists s, Prim2SF z = S754_zero s.
Proof.
  rewrite FloatAxioms.eqb_spec. change (Prim2SF 0) with (S754_zero false).
  unfold SFeqb, SFcompare. destruct (Prim2SF z) as [s|s| |s m e]; try done.
  - by exists s.
  - by destruct s.
  - by destruct s.
Qed.

Lemma eqb_refl_inv (x : float) : (x =? x)%float = true -> Prim2SF x <> S754_nan.
Proof. rewrite FloatAxioms.eqb_spec. by destruct (Prim2SF x). Qed.

Lemma SFeqb_refl x : x <> S754_nan -> SFeqb x x = true.
Proof.
  unfold SFeqb, SFcompare. destruct x as [s|s| |s m e]; try done; try (by destruct s).
  intros _.
  change (IntDef.Z.compare e e) with (Z.compare e e).
  change (PosDef.Pos.compare_cont Eq m m) with (Pos.compare m m).
  rewrite Z.compare_refl, Pos.compare_refl. by destruct s.
Qed.

Lemma mul_lit_zero (k z : float) s m e :
  Prim2SF k = S754_finite s m e -> (z =? 0)%float = true -> ((k * z) =? 0)%float = true.
Proof.
  intros Hk [sz Hz]%eqb_zero_inv.
  rewrite FloatAxioms.eqb_spec, mul_spec, Hk, Hz. reflexivity.
Qed.

Lemma sub_zero (x z : float) :
  (x =? x)%float = true -> (z =? 0)%float = true -> ((x - z) =? x)%float = true.
Proof.
  intros Hx%eqb_refl_inv [sz Hz]%eqb_zero_inv.
  rewrite FloatAxioms.eqb_spec, sub_spec, Hz. unfold SF64sub, SFsub.
  destruct (Prim2SF x) as [s|s| |s m e] eqn:E; try done.
  - by destruct s, sz.
  - by apply SFeqb_refl.
  - by apply SFeqb_refl.
Qed.

Lemma add_zero (x z : float) :
  (x =? x)%float = true -> (z =? 0)%float = true -> ((x + z) =? x)%float = true.
Proof.
  intros Hx%eqb_refl_inv [sz Hz]%eqb_zero_inv.
  rewrite FloatAxioms.eqb_spec, add_spec, Hz. unfold SF64add, SFadd.
  destruct (Prim2SF x) as [s|s| |s m e] eqn:E; try done.
  - by destruct s, sz.
  - by apply SFeqb_refl.
  - by apply SFeqb_refl.
Qed.

(** A number that cancels itself is finite: [x - x] is NaN for the
    infinities and for NaN. *)
Lemma sub_self_finite (x : float) :
  (x - x =? 0)%float = true ->
  (exists s, Prim2SF x = S754_zero s) ∨ (exists s m e, Prim2SF x = S754_finite s m e).
Proof.
  rewrite FloatAxioms.eqb_spec, sub_spec. change (Prim2SF 0) with (S754_zero false).
  destruct (Prim2SF x) as [s|s| |s m e]; [by eauto|by destruct s|done|by eauto 6].
Qed.

(** No step at all from [start] is [start], when the step is finite. *)
Lemma first_step (step start : float) :
  (step - step =? 0)%float = true -> (start =? start)%float = true ->
  (float_of_Z 0 * step + start =? start)%float = true.
Proof.
  intros Hstep Hx%eqb_refl_inv.
  assert (exists s, Prim2SF (float_of_Z 0 * step) = S754_zero s) as [sz Hz].
  { rewrite mul_spec. change (Prim2SF (float_of_Z 0)) with (S754_zero false).
    destruct (sub_self_finite _ Hstep) as [[s ->] | (s & m & e & ->)]; by eexists. }
  rewrite FloatAxioms.eqb_spec, add_spec, Hz. unfold SF64add, SFadd.
  destruct (Prim2SF start) as [s|s| |s m e] eqn:E; try done.
  - by destruct s, sz.
  - by apply SFeqb_refl.
  - by apply SFeqb_refl.
Qed.

(** Numbers that are equal compare alike with a third (the two zeros are
    equal, and compare alike). *)
Lemma SFcompare_eqb_l x y z : SFeqb x y = true -> SFcompare x z = SFcompare y z.
Proof.
  unfold SFeqb, SFcompare.
  destruct x as [sx|sx| |sx mx ex], y as [sy|sy| |sy my ey];
    try discriminate; try (by destruct sx, sy); try (by destruct sx, sy, z).
  change (PosDef.Pos.compare_cont Eq) with Pos.compare.
  change IntDef.Z.compare with Z.compare.
  destruct sx, sy; try done;
    destruct (Z.compare_spec ex ey); try done;
    destruct (Pos.compare_spec mx my); try done; by subst.
Qed.

Lemma SFcompare_eqb_r x y z : SFeqb x y = true -> SFcompare z x = SFcompare z y.
Proof.
  unfold SFeqb, SFcompare.
  destruct x as [sx|sx| |sx mx ex], y as [sy|sy| |sy my ey];
    try discriminate; try (by destruct sx, sy); try (by destruct sx, sy, z).
  change (PosDef.Pos.compare_cont Eq) with Pos.compare.
  change IntDef.Z.compare with Z.compare.
  destruct sx, sy; try done;
    destruct (Z.compare_spec ex ey); try done;
    destruct (Pos.compare_spec mx my); try done; by subst.
Qed.

Lemma ltb_eqb_l (x y z : float) :
  (x =? y)%float = true -> (x <? z)%float = (y <? z)%float.
Proof.
  rewrite FloatAxioms.eqb_spec, !ltb_spec. unfold SFltb.
  by intros ->%(SFcompare_eqb_l _ _ (Prim2SF z)).
Qed.

Lemma ltb_eqb_r (x y z : float) :
  (x =? y)%float = true -> (z <? x)%float = (z <? y)%float.
Proof.
  rewrite FloatAxioms.eqb_spec, !ltb_spec. unfold SFltb.
  by intros ->%(SFcompare_eqb_r _ _ (Prim2SF z)).
Qed.

#[export] Instance float_PyOrder : PyOrder float.
Proof. split; [apply ltb_irrefl | apply ltb_trans]. Qed.

(** * The properties of the specification *)

(** ** Tail boundaries and plot domain *)

Section Calculator_claims.
Context {A : Type} `{PyNum A}.
Local Open Scope py_scope.

(** C2. For every mean [mu] and every standard deviation [sigma > 0],
    [calculate_tails] returns the pair [(mu - 3 sigma, mu + 3 sigma)] and
    [calculate_xrange] the pair [(mu - 4 sigma, mu + 4 sigma)], the
    operations being those of the arguments' own arithmetic. *)
Theorem calculators_formulas (mu sigma : A) :
  (lit 0 <? sigma) = true ->
  calculate_tails mu sigma = (mu - lit 3 * sigma, mu + lit 3 * sigma) ∧
  calculate_xrange mu sigma = (mu - lit 4 * sigma, mu + lit 4 * sigma).
Proof. intros _. split; reflexivity. Qed.
End Calculator_claims.

(** The standard normal: tails at [-3] and [3], domain from [-4] to [4]. *)
Lemma calculators_formulas_std_normal :
  (0 <? 1)%float = true ∧
  calculate_tails 0%float 1%float = ((-3)%float, 3%float) ∧
  calculate_xrange 0%float 1%float = ((-4)%float, 4%float).
Proof.
  split; [reflexivity|].
  exact (calculators_formulas 0%float 1%float eq_refl).
Defined.

(** C9. [calculate_tails] and [calculate_xrange] are total (they are
    functions into pairs, with no exception in their type, and divide by
    nothing), and a zero standard deviation degenerates to a point: for every
    number [mu] (any float but NaN, so every finite one) and [sigma == 0],
    both return a pair whose two components equal [mu]. *)
Theorem calculators_degenerate (mu sigma : float) :
  (mu =? mu)%py = true -> (sigma =? lit 0)%py = true ->
  let '(lower, upper) := calculate_tails mu sigma in
  let '(x_min, x_max) := calculate_xrange mu sigma in
  (lower =? mu)%py = true ∧ (upper =? mu)%py = true ∧
  (x_min =? mu)%py = true ∧ (x_max =? mu)%py = true.
Proof.
  intros Hmu Hs. unfold calculate_tails, calculate_xrange. simpl in *.
  assert ((float_of_Z 3 * sigma =? 0)%float = true) as H3.
  { eapply mul_lit_zero; [|done]. vm_compute. reflexivity. }
  assert ((float_of_Z 4 * sigma =? 0)%float = true) as H4.
  { eapply mul_lit_zero; [|done]. vm_compute. reflexivity. }
  repeat split; by first [apply sub_zero | apply add_zero].
Qed.

(** At [mu = 2.5] with no spread at all. *)
Lemma calculators_degenerate_at_2_5 :
  let '(lower, upper) := calculate_tails 2.5%float 0%float in
  let '(x_min, x_max) := calculate_xrange 2.5%float 0%float in
  (lower =? 2.5)%float = true ∧ (upper =? 2.5)%float = true ∧
  (x_min =? 2.5)%float = true ∧ (x_max =? 2.5)%float = true.
Proof. apply (calculators_degenerate 2.5%float 0%float); reflexivity. Defined.

(** The same in exact arithmetic. *)
Lemma calculators_degenerate_Q (mu sigma : Q) :
  (sigma == 0)%Q ->
  ((calculate_tails mu sigma).1 == mu ∧ (calculate_tails mu sigma).2 == mu ∧
   (calculate_xrange mu sigma).1 == mu ∧ (calculate_xrange mu sigma).2 == mu)%Q.
Proof.
  intros Hs. unfold calculate_xrange, calculate_tails.
  cbn [fst snd py_sub py_add py_mul of_int Q_PyNum].
  rewrite Hs. repeat split; ring.
Qed.

(** C10, as the code has it.  In binary64 a standard deviation that is
    negligible beside the mean is absorbed: at [mu = 1e17], [sigma = 1] the
    four boundaries are one number, and none is below another. *)
Lemma tails_collapse_in_binary64 :
  (0 <? 1)%float = true ∧
  calculate_xrange 1e17%float 1%float = (1e17%float, 1e17%float) ∧
  calculate_tails 1e17%float 1%float = (1e17%float, 1e17%float) ∧
  ((calculate_xrange 1e17 1).1 <? (calculate_tails 1e17 1).1)%float = false ∧
  ((calculate_tails 1e17 1).1 <? (calculate_tails 1e17 1).2)%float = false ∧
  ((calculate_tails 1e17 1).2 <? (calculate_xrange 1e17 1).2)%float = false.
Proof. vm_compute. repeat split; reflexivity. Qed.

Section Ordering.
Local Open Scope Q_scope.

(** C10, amended. For every mean and every standard deviation [sigma > 0]
    the boundaries are in order, [x_min <= lower <= upper <= x_max], in any
    arithmetic that rounds monotonically and keeps zero; and they are
    strictly in order, [x_min < lower < upper < x_max], when the arithmetic
    is exact. *)
Theorem tails_inside_domain (rnd : Q -> Q) (mu sigma : Q) :
  (forall a b, a <= b -> rnd a <= rnd b) -> rnd 0 == 0 -> 0 < sigma ->
  let '(x_min, x_max) := @calculate_xrange Q (Rounded_PyNum rnd) mu sigma in
  let '(lower, upper) := @calculate_tails Q (Rounded_PyNum rnd) mu sigma in
  (x_min <= lower ∧ lower <= upper ∧ upper <= x_max) ∧
  ((forall q, rnd q == q) -> x_min < lower ∧ lower < upper ∧ upper < x_max).
Proof.
  intros Hmono H0 Hs. unfold calculate_xrange, calculate_tails. simpl.
  assert (0 <= rnd (inject_Z 3)) as H3.
  { rewrite <- H0. by apply Hmono. }
  assert (0 <= rnd (rnd (inject_Z 3) * sigma)) as Ha3.
  { rewrite <- H0 at 1. apply Hmono. apply Qmult_le_0_compat; [done|]. by apply Qlt_le_weak. }
  assert (rnd (rnd (inject_Z 3) * sigma) <= rnd (rnd (inject_Z 4) * sigma)) as Ha34.
  { apply Hmono. apply Qmult_le_compat_r; [by apply Hmono|]. by apply Qlt_le_weak. }
  split.
  - set (a3 := rnd (rnd (inject_Z 3) * sigma)) in *.
    set (a4 := rnd (rnd (inject_Z 4) * sigma)) in *.
    repeat split; apply Hmono; lra.
  - intros Hid.
    pose proof (Hid (rnd (inject_Z 3) * sigma)) as E3.
    pose proof (Hid (rnd (inject_Z 4) * sigma)) as E4.
    set (a3 := rnd (rnd (inject_Z 3) * sigma)) in *.
    set (a4 := rnd (rnd (inject_Z 4) * sigma)) in *.
    rewrite (Hid (inject_Z 3)) in E3. rewrite (Hid (inject_Z 4)) in E4.
    change (inject_Z 3) with 3 in E3. change (inject_Z 4) with 4 in E4.
    rewrite (Hid (mu - a4)), (Hid (mu - a3)), (Hid (mu + a3)), (Hid (mu + a4)).
    repeat split; lra.
Qed.

(** In exact arithmetic, the instance the identity gives. *)
Corollary tails_strictly_inside_domain (mu sigma : Q) :
  0 < sigma ->
  (calculate_xrange mu sigma).1 < (calculate_tails mu sigma).1 ∧
  (calculate_tails mu sigma).1 < (calculate_tails mu sigma).2 ∧
  (calculate_tails mu sigma).2 < (calculate_xrange mu sigma).2.
Proof.
  intros Hs. unfold calculate_xrange, calculate_tails.
  cbn [fst snd py_sub py_add py_mul of_int Q_PyNum].
  change (inject_Z 3) with 3. change (inject_Z 4) with 4. repeat split; lra.
Qed.

(** With a standard deviation that is not negative the tails are in order. *)
Lemma tails_ordered_Q (mu sigma : Q) :
  0 <= sigma -> ((calculate_tails mu sigma).2 <? (calculate_tails mu sigma).1)%py = false.
Proof.
  intros Hs. apply not_true_iff_false. rewrite Q_lt_iff.
  unfold calculate_tails. cbn [fst snd py_sub py_add py_mul of_int Q_PyNum].
  change (inject_Z 3) with 3. lra.
Qed.
End Ordering.

(** Rounding down to integers, at [mu = 1/2], [sigma = 1/10]. *)
Lemma tails_inside_domain_rounded_down :
  let '(x_min, x_max) := @calculate_xrange Q (Rounded_PyNum round_down) (1 # 2)%Q (1 # 10)%Q in
  let '(lower, upper) := @calculate_tails Q (Rounded_PyNum round_down) (1 # 2)%Q (1 # 10)%Q in
  ((x_min <= lower ∧ lower <= upper ∧ upper <= x_max) ∧
   ((forall q, round_down q == q) -> x_min < lower ∧ lower < upper ∧ upper < x_max))%Q.
Proof.
  apply (tails_inside_domain round_down (1 # 2)%Q (1 # 10)%Q).
  - apply round_down_mono.
  - reflexivity.
  - reflexivity.
Defined.

(** ** The distribution names *)

(** The stages of a call that got as far as its last line: the generator
    [gen], the distribution [dist], the samples [xs] and [ys] and their
    maximum [ymax], each with the equation that gives it. *)
Ltac plot_stages :=
  rewrite ?plot_tail_events_run;
  destruct (resolve _) as [?|gen] eqn:Er; [done|];
  destruct (_ gen _) as [?|dist] eqn:Ec; [done|]; cbn zeta;
  destruct (sample_density _ _ _ _) as [?|[xs ys]] eqn:Es; [done|];
  destruct (py_max ys) as [?|ymax] eqn:Em; [done|].

Section Plot_claims.
Context {A : Type} `{PyNum A}.
Variable stats : rv_continuous -> kwargs A -> exn + rv_frozen A.
Local Open Scope py_scope.

(** C1, as the code has it. The name [laplace] of the docstring is refused:
    whatever the other arguments and the open figures, the call raises the
    assertion error and opens nothing. The name that is accepted is
    [Laplace], and it is the one the message lists. *)
Theorem laplace_rejected n tail_color center_color params st :
  plot_tail_events stats "laplace" n tail_color center_color params st
    = (inl (AssertionError assert_message), st) ∧
  resolve "Laplace" = inr laplace ∧
  String.index 0 "'Laplace'" assert_message = Some 95%nat ∧
  String.index 0 "'laplace'" assert_message = None.
Proof.
  split; [|by vm_compute].
  rewrite plot_tail_events_run.
  assert (resolve "laplace" = inl (AssertionError assert_message)) as ->; [|done].
  apply resolve_inl. split; [done|]. intros [?|[?|[?|?]]]; discriminate.
Qed.

(** The names that pass the assertion are the four keys of the dictionary. *)
Lemma plot_tail_events_names distribution n tail_color center_color params st :
  plot_tail_events stats distribution n tail_color center_color params st
    = (inl (AssertionError assert_message), st)
  ∨ distribution ∈ ["normal"; "uniform"; "Laplace"; "exponential"].
Proof.
  rewrite plot_tail_events_run.
  destruct (resolve distribution) as [e|gen] eqn:Er.
  - left. by apply resolve_inl in Er as [-> _].
  - right. apply resolve_inr in Er. rewrite !elem_of_cons.
    destruct Er as [[-> _] | [[-> _] | [[-> _] | [-> _]]]]; tauto.
Qed.

(** ** The density sampling step *)

(** C5, amended. The density sampling step raises exactly when [n] is
    negative; for every [n >= 0] it returns [n] points and the density at
    each (none for [n = 0], the single point [x_min] for [n = 1]). *)
Theorem sampler_rejects_only_negative (dist : rv_frozen A) (x_min x_max : A) (n : Z) :
  ((n < 0)%Z <-> exists e, sample_density dist x_min x_max n = inl e) ∧
  ((0 <= n)%Z <->
     exists xs, sample_density dist x_min x_max n = inr (xs, rv_pdf dist <$> xs)
                ∧ length xs = Z.to_nat n).
Proof.
  unfold sample_density. destruct (linspace x_min x_max n) as [e|xs] eqn:El.
  - apply linspace_inl in El. split; split; try lia; try by eauto.
    intros (? & ? & _); done.
  - apply linspace_length in El as [Hn Hlen]. split; split; try lia; try by eauto.
    intros (? & ?); done.
Qed.

(** ** The figure *)


(** The fills of a successful call are [fills] over the sampled sequences
    and the tails of the distribution. *)
Lemma plot_draws_fills distribution n tail_color center_color params st fig ax st' :
  plot_tail_events stats distribution n tail_color center_color params st
    = (inr (fig, ax), st') ->
  exists gen dist xs ys a,
    resolve distribution = inr gen ∧ stats gen params = inr dist ∧
    sample_density dist (calculate_xrange (rv_mean dist) (rv_std dist)).1
                        (calculate_xrange (rv_mean dist) (rv_std dist)).2 n = inr (xs, ys) ∧
    axes_of st' ax = Some a ∧
    collections a = fills tail_color center_color
                      (calculate_tails (rv_mean dist) (rv_std dist)) xs ys.
Proof.
  plot_stages.
  intros [= <- <- <-]. exists gen, dist, xs, ys. eexists.
  rewrite axes_of_newest. by repeat split.
Qed.

(** ** Determinism *)

(** C7. What a call gives its caller, the exception or the axes with all
    that was drawn on it, depends on the arguments alone and not on the
    figures that are open: two calls with the same arguments, whatever was
    plotted in between, draw the same sampled sequences [(xs, ys)], and these
    are the ones of the density sampling step. *)
Theorem sampled_sequences_deterministic distribution n tail_color center_color params st1 st2 :
  outcome (plot_tail_events stats distribution n tail_color center_color params st1)
  = outcome (plot_tail_events stats distribution n tail_color center_color params st2)
  ∧ forall a,
      outcome (plot_tail_events stats distribution n tail_color center_color params st1)
        = inr (Some a) ->
      exists gen dist,
        resolve distribution = inr gen ∧ stats gen params = inr dist ∧
        inr <$> sampled_xy a =
          Some (sample_density dist (calculate_xrange (rv_mean dist) (rv_std dist)).1
                               (calculate_xrange (rv_mean dist) (rv_std dist)).2 n).
Proof.
  plot_stages.
  unfold outcome; cbn [fst snd]. rewrite !axes_of_newest. split; [done|].
  intros a [= <-]. exists gen, dist. by rewrite Es.
Qed.

(** ** Failures *)

(** C8. A call that fails on the distribution name, or on an exception of
    the distribution's constructor, raises that very exception and leaves the
    open figures as they were: no figure or axes has been made. *)
Theorem failure_leaves_no_figure distribution n tail_color center_color params st e :
  resolve distribution = inl e ∨
  (exists gen, resolve distribution = inr gen ∧ stats gen params = inl e) ->
  plot_tail_events stats distribution n tail_color center_color params st = (inl e, st).
Proof.
  rewrite plot_tail_events_run. intros [-> | (gen & -> & ->)]; done.
Qed.

(** Later failures are another matter. In this model, where drawing itself
    never raises, there is one: [max] of no samples, which takes [n = 0] and
    comes when the figure is already open. *)
Lemma failure_after_figure distribution n tail_color center_color params st e st' :
  plot_tail_events stats distribution n tail_color center_color params st = (inl e, st') ->
  st' = st ∨ (n = 0%Z ∧ length st' = S (length st)).
Proof.
  rewrite plot_tail_events_run.
  destruct (resolve distribution) as [?|gen]; [intros [= _ <-]; by left|].
  destruct (stats gen params) as [?|dist]; [intros [= _ <-]; by left|]. cbn zeta.
  unfold sample_density.
  destruct (linspace _ _ n) as [?|xs] eqn:El; [intros [= _ <-]; by left|].
  apply linspace_length in El as [Hn Hlen].
  destruct xs as [|x xs]; simpl; [|done].
  intros [= _ <-]. right. rewrite length_app. simpl in *. split; lia.
Qed.
End Plot_claims.


(** An unknown name, with figures already open. *)
Lemma failure_leaves_no_figure_gamma :
  plot_tail_events (A:=Q) toy_stats "gamma" 100 "#ff0000" "#e6ffff" ∅
                   [MkFigure None empty_axes]
  = (inl (AssertionError assert_message), [MkFigure None empty_axes]).
Proof. apply failure_leaves_no_figure. left. vm_compute. reflexivity. Defined.

(** A keyword the constructor does not know. *)
Example failure_of_constructor :
  plot_tail_events (A:=Q) toy_stats "normal" 100 "#ff0000" "#e6ffff" {[ "shape" := 2%Q ]} []
  = (inl (Exn "TypeError" "_parse_args() got an unexpected keyword argument"), []).
Proof. vm_compute. reflexivity. Qed.

(** No samples: the figure is open when [max] raises. *)
Example failure_with_no_samples :
  exists fig,
    plot_tail_events (A:=Q) toy_stats "normal" 0 "#ff0000" "#e6ffff" ∅ []
    = (inl (ValueError "max() arg is an empty sequence"), [fig]).
Proof. eexists. vm_compute. reflexivity. Qed.

(** Two calls one after the other: the second finds the figure of the first
    and draws the same. *)
Example two_calls_in_a_row :
  let call := plot_tail_events (A:=float) toy_stats "normal" 100 "#ff0000" "#e6ffff" ∅ in
  outcome (call []) = outcome (call (call []).2) ∧ length (call (call []).2).2 = 2%nat.
Proof. vm_compute. split; reflexivity. Qed.

(** C5, as the code has it: one sample is not refused. *)
Lemma sampler_accepts_one_sample :
  (1 < 2)%Z ∧
  sample_density (toy_frozen 0%float 1%float) (-4)%float 4%float 1
  = inr ([(-4)%float], [rv_pdf (toy_frozen 0%float 1%float) (-4)%float]) ∧
  sample_density (toy_frozen 0%float 1%float) (-4)%float 4%float 0 = inr ([], []).
Proof. vm_compute. repeat split; reflexivity. Qed.

(** ** The three regions *)

Section Region_claims.
Context {A : Type} `{PyOrder A}.
Local Open Scope py_scope.

(** The fill on top of a sample, read off the three calls. *)
Lemma top_fill_fills tail_color center_color (tails : A * A) (x y : list A) i v :
  x !! i = Some v ->
  top_fill (fills tail_color center_color tails x y) i =
  Some (if v >? tails.2 then right_tail else if v <? tails.1 then left_tail
        else center_region).
Proof.
  intros Hv. unfold top_fill, fills, top_fill_from, covers. cbn [poly_where].
  rewrite !list_lookup_fmap, Hv. cbn [fmap option_fmap option_map default].
  unfold id. by destruct (tails.2 <? v), (v <? tails.1).
Qed.

(** C3. With tail boundaries in order (the upper one not below the lower
    one), every sample is seen in exactly one of the three regions: in the
    left tail if and only if [x < lower], in the right tail if and only if
    [x > upper], in the centre otherwise; no sample is in both tails, and a
    sample that is a tail boundary is in the centre. *)
Theorem fill_regions_partition tail_color center_color (lower upper : A)
    (x y : list A) (i : nat) (v : A) :
  x !! i = Some v -> (upper <? lower) = false ->
  exists r, top_fill (fills tail_color center_color (lower, upper) x y) i = Some r ∧
    (r = left_tail <-> (v <? lower) = true) ∧
    (r = right_tail <-> (v >? upper) = true) ∧
    (r = center_region <-> (v <? lower) = false ∧ (v >? upper) = false) ∧
    ((v <? lower) = true -> (v >? upper) = false) ∧
    (v = lower ∨ v = upper -> r = center_region).
Proof.
  intros Hv Hord.
  assert ((v <? lower) = true -> (v >? upper) = false) as Hdisj.
  { intros Hl. apply not_true_iff_false. intros Hu.
    by rewrite (py_lt_trans _ _ _ Hu Hl) in Hord. }
  eexists. split; [by apply top_fill_fills|]. cbn [fst snd].
  unfold left_tail, right_tail, center_region.
  destruct (v <? lower) eqn:El, (upper <? v) eqn:Eu;
    try (by specialize (Hdisj eq_refl)); repeat split; try done; try lia.
  all: try (intros [_ ?]; done); try (intros [? _]; done).
  all: intros [->| ->]; by rewrite ?py_lt_irrefl in *; try congruence.
Qed.
End Region_claims.

(** Five samples of the standard normal in binary64, whose second is the
    lower tail boundary [-3]. *)
Lemma fill_regions_partition_boundary :
  exists r,
    top_fill (fills "#ff0000" "#e6ffff" ((-3)%float, 3%float)
                [(-4)%float; (-3)%float; 0%float; 3%float; 4%float]
                [0%float; 0%float; 1%float; 0%float; 0%float]) 1 = Some r ∧
    (r = left_tail <-> ((-3) <? (-3))%float = true) ∧
    (r = right_tail <-> (3 <? (-3))%float = true) ∧
    (r = center_region <-> ((-3) <? (-3))%float = false ∧ (3 <? (-3))%float = false) ∧
    (((-3) <? (-3))%float = true -> (3 <? (-3))%float = false) ∧
    ((-3)%float = (-3)%float ∨ (-3)%float = 3%float -> r = center_region).
Proof.
  exact (fill_regions_partition (A:=float) "#ff0000" "#e6ffff" (-3)%float 3%float
           [(-4)%float; (-3)%float; 0%float; 3%float; 4%float]
           [0%float; 0%float; 1%float; 0%float; 0%float] 1 (-3)%float eq_refl eq_refl).
Defined.

Example regions_of_five_samples :
  top_fill (fills "#ff0000" "#e6ffff" ((-3)%float, 3%float)
              [(-4)%float; (-3)%float; 0%float; 3%float; 4%float]
              [0%float; 0%float; 1%float; 0%float; 0%float])
    <$> [0; 1; 2; 3; 4]%nat
  = Some <$> [left_tail; center_region; center_region; center_region; right_tail].
Proof. vm_compute. reflexivity. Qed.

(** ** The grid *)


Section Grid_claims.
Local Open Scope py_scope.

End Grid_claims.


Example linspace_binary64 :
  linspace 0%float 1%float 5 = inr [0%float; 0.25%float; 0.5%float; 0.75%float; 1%float].
Proof. vm_compute. reflexivity. Qed.

Section Grid_exact.
Local Open Scope Q_scope.

(** What the rounded grid approximates. Were the sampling done in exact
    arithmetic (NumPy does not offer that), the first point would be [x_min]
    and each point would lie above the one before by the same step
    [(x_max - x_min) / (n - 1)]. *)
Lemma sampler_grid_exact (dist : rv_frozen Q) (x_min x_max : Q) (n : Z) :
  (2 <= n)%Z -> x_min < x_max ->
  exists xs ys,
    sample_density dist x_min x_max n = inr (xs, ys) ∧
    (exists v, head xs = Some v ∧ v == x_min) ∧
    last xs = Some x_max ∧
    (forall i a b, xs !! i = Some a -> xs !! S i = Some b ->
       a < b ∧ b - a == (x_max - x_min) / inject_Z (n - 1)).
Proof.
  intros Hn Hlt. unfold sample_density.
  destruct (linspace x_min x_max n) as [e|xs] eqn:El.
  { apply linspace_inl in El. lia. }
  pose proof (linspace_length _ _ _ _ El) as [_ Hlen].
  exists xs, (rv_pdf dist <$> xs).
  split; [done|]. split; [|split].
  - destruct (linspace_Q_lookup _ _ _ _ 0%nat Hn El) as (v & Hv & Ev); [lia|].
    exists v. split; [by rewrite head_lookup|].
    rewrite Ev. unfold grid_point. simpl. ring.
  - by eapply linspace_last.
  - intros i a b Ha Hb.
    destruct (linspace_Q_lookup _ _ _ _ i Hn El) as (a' & Ha' & Ea).
    { apply lookup_lt_Some in Ha. lia. }
    destruct (linspace_Q_lookup _ _ _ _ (S i) Hn El) as (b' & Hb' & Eb).
    { apply lookup_lt_Some in Hb. lia. }
    simplify_eq. rewrite Ea, Eb, grid_point_S.
    pose proof (grid_step_pos x_min x_max n Hn Hlt) as Hpos.
    split; [lra|]. unfold grid_step. ring.
Qed.
End Grid_exact.

(** ** The model at work *)

Example tails_std_normal : calculate_tails 0%float 1%float = ((-3)%float, 3%float).
Proof. vm_compute. reflexivity. Qed.

Example xrange_std_normal_Q : calculate_xrange 0%Q 1%Q = ((-4)%Q, 4%Q).
Proof. vm_compute. reflexivity. Qed.

Example literal_1_2 : (lit 12 / lit 10)%py = 0x1.3333333333333p+0%float.
Proof. vm_compute. reflexivity. Qed.

(** * Further properties of the code *)

(** ** The whole call *)

Section Plot_more.
Context {A : Type} `{PyNum A}.
Variable stats : rv_continuous -> kwargs A -> exn + rv_frozen A.
Local Open Scope py_scope.

Lemma py_max_inl (l : list A) e : py_max l = inl e -> l = [].
Proof. by destruct l. Qed.

Lemma sample_density_inr (dist : rv_frozen A) x_min x_max n xs ys :
  sample_density dist x_min x_max n = inr (xs, ys) ->
  (0 <= n)%Z ∧ length xs = Z.to_nat n ∧ ys = rv_pdf dist <$> xs.
Proof.
  unfold sample_density. destruct (linspace x_min x_max n) as [?|x] eqn:El; [done|].
  intros [= <- <-]. apply linspace_length in El as [? ?]. done.
Qed.

(** X1. A call succeeds only if the name is one of the dictionary, the
    constructor accepts the parameters, and at least one sample is asked
    for. *)
Theorem plot_succeeds_only_if distribution n tail_color center_color params st fig ax st' :
  plot_tail_events stats distribution n tail_color center_color params st
    = (inr (fig, ax), st') ->
  exists gen dist,
    resolve distribution = inr gen ∧ stats gen params = inr dist ∧ (1 <= n)%Z.
Proof.
  plot_stages. intros _. exists gen, dist. split; [done|]. split; [done|].
  apply sample_density_inr in Es as (Hn & Hlen & ->).
  destruct xs; [done|]. simpl in Hlen. lia.
Qed.

(** X2. Whatever the outcome, the figures that were open stay as they were,
    and at most one is added after them; on success exactly one is, and both
    handles returned are its position. *)
Theorem plot_keeps_open_figures distribution n tail_color center_color params st :
  exists new,
    (plot_tail_events stats distribution n tail_color center_color params st).2
      = st ++ new ∧
    (length new <= 1)%nat ∧
    forall fig ax,
      (plot_tail_events stats distribution n tail_color center_color params st).1
        = inr (fig, ax) ->
      fig = length st ∧ ax = length st ∧ exists a, new = [MkFigure (Some (9, 6)%Z) a].
Proof.
  assert (forall e : exn,
            exists new : pyplot A, st = st ++ new ∧ (length new <= 1)%nat ∧
              forall fig ax : nat, inl e = inr (fig, ax) ->
                fig = length st ∧ ax = length st ∧
                exists a, new = [MkFigure (Some (9, 6)%Z) a]) as Hfail.
  { intros e. exists []. rewrite app_nil_r. split; [done|]. split; [simpl; lia|].
    by intros ? ? [=]. }
  rewrite plot_tail_events_run.
  destruct (resolve distribution) as [?|gen]; [apply Hfail|].
  destruct (stats gen params) as [?|dist]; [apply Hfail|].
  cbn zeta.
  destruct (sample_density _ _ _ _) as [?|[xs ys]]; [apply Hfail|].
  destruct (py_max ys) as [?|ymax]; cbn [fst snd]; eexists;
    (split; [done|]); (split; [simpl; lia|]).
  - by intros ? ? [=].
  - intros fig ax [= <- <-]. eauto.
Qed.

(** X3. A negative sample count is refused by [linspace], with the count in
    the message, before any figure is made. *)
Theorem plot_negative_count distribution n tail_color center_color params st gen dist :
  resolve distribution = inr gen -> stats gen params = inr dist -> (n < 0)%Z ->
  plot_tail_events stats distribution n tail_color center_color params st
  = (inl (ValueError ("Number of samples, " +:+ pretty n +:+ ", must be non-negative.")), st).
Proof.
  intros Hr Hc Hn. rewrite plot_tail_events_run, Hr, Hc. cbn zeta.
  unfold sample_density, linspace.
  destruct (Z.ltb_spec n 0) as [_|?]; [done|lia].
Qed.

(** X4. A count of zero is refused late: the fills, the labels and the
    lines are on a new figure, over no sample and without limits, when [max]
    raises. *)
Theorem plot_zero_count distribution tail_color center_color params st gen dist :
  resolve distribution = inr gen -> stats gen params = inr dist ->
  plot_tail_events stats distribution 0 tail_color center_color params st
  = (inl (ValueError "max() arg is an empty sequence"),
     st ++ [MkFigure (Some (9, 6)%Z)
              (drawn distribution tail_color center_color (rv_mean dist)
                     (calculate_tails (rv_mean dist) (rv_std dist)) [] [])]).
Proof.
  intros Hr Hc. rewrite plot_tail_events_run, Hr, Hc. reflexivity.
Qed.

(** X5. A call consults SciPy through the generator of its name alone,
    with the parameters as they were given: two versions of [scipy.stats]
    that agree there give the same call. *)
Theorem plot_calls_generator (stats' : rv_continuous -> kwargs A -> exn + rv_frozen A)
    distribution gen n tail_color center_color params st :
  (distribution, gen) ∈ [("normal", norm); ("uniform", uniform);
                         ("Laplace", laplace); ("exponential", expon)] ->
  stats gen params = stats' gen params ->
  plot_tail_events stats distribution n tail_color center_color params st
  = plot_tail_events stats' distribution n tail_color center_color params st.
Proof.
  intros Hin Heq. rewrite !plot_tail_events_run.
  assert (resolve distribution = inr gen) as ->.
  { apply resolve_inr. rewrite !elem_of_cons, elem_of_nil in Hin.
    destruct Hin as [[= -> ->] | [[= -> ->] | [[= -> ->] | [[= -> ->] | []]]]]; tauto. }
  by rewrite Heq.
Qed.

(** ** What is drawn *)

(** X6. On the axes of a successful call there are three vertical lines, in
    this order: at the lower tail and at the upper tail, solid, and at the
    mean, dashed; all black and of width 1. *)
Theorem plot_reference_lines distribution n tail_color center_color params st fig ax st' :
  plot_tail_events stats distribution n tail_color center_color params st
    = (inr (fig, ax), st') ->
  exists gen dist a,
    resolve distribution = inr gen ∧ stats gen params = inr dist ∧
    axes_of st' ax = Some a ∧
    lines a =
      [ Line (calculate_tails (rv_mean dist) (rv_std dist)).1 "black" "-" 1;
        Line (calculate_tails (rv_mean dist) (rv_std dist)).2 "black" "-" 1;
        Line (rv_mean dist) "black" "--" 1 ].
Proof.
  plot_stages. intros [= <- <- <-]. exists gen, dist. eexists.
  rewrite axes_of_newest. by repeat split.
Qed.

(** X7. The title names the distribution as it was given, in size 16; the
    axes are labelled [x] and [f(x)] in size 14, the size of the x tick
    labels too; the figure is 9 by 6. *)
Theorem plot_labels distribution n tail_color center_color params st fig ax st' :
  plot_tail_events stats distribution n tail_color center_color params st
    = (inr (fig, ax), st') ->
  exists a,
    st' !! fig = Some (MkFigure (Some (9, 6)%Z) a) ∧ axes_of st' ax = Some a ∧
    ax_title a = Some (MkText ("Tail events for " +:+ distribution +:+ " distribution") 16) ∧
    ax_xlabel a = Some (MkText "x" 14) ∧ ax_ylabel a = Some (MkText "f(x)" 14) ∧
    xtick_label_fontsize a = Some 14%Z.
Proof.
  plot_stages. intros [= <- <- <-]. eexists.
  rewrite axes_of_newest, list_lookup_middle by done. by repeat split.
Qed.

(** The colour on top of a sample of [fills]. *)
Lemma seen_color_fills tail_color center_color (tails : A * A) (x y : list A) i v :
  x !! i = Some v ->
  seen_color (fills tail_color center_color tails x y) i
  = Some (if (v <? tails.1) || (v >? tails.2) then tail_color else center_color).
Proof.
  intros Hv. unfold seen_color. rewrite (top_fill_fills _ _ _ _ _ _ _ Hv).
  unfold right_tail, left_tail, center_region.
  by destruct (tails.2 <? v), (v <? tails.1).
Qed.

(** X8. On the axes of a successful call every sample shows the tail colour
    if it is below the lower tail or above the upper tail, and the centre
    colour otherwise; all three fills are over the same samples, from the
    base line 0, and each mask has an entry for every sample. *)
Theorem plot_colours distribution n tail_color center_color params st fig ax st' :
  plot_tail_events stats distribution n tail_color center_color params st
    = (inr (fig, ax), st') ->
  exists gen dist a xs ys,
    resolve distribution = inr gen ∧ stats gen params = inr dist ∧
    axes_of st' ax = Some a ∧ sampled_xy a = Some (xs, ys) ∧
    Forall (λ c, poly_x c = xs ∧ poly_y2 c = ys ∧ poly_y1 c = lit 0 ∧
                 poly_interpolate c = true ∧
                 from_option (λ mask, length mask = length xs) True (poly_where c))
           (collections a) ∧
    forall i v, xs !! i = Some v ->
      seen_color (collections a) i
      = Some (if (v <? (calculate_tails (rv_mean dist) (rv_std dist)).1)
                 || (v >? (calculate_tails (rv_mean dist) (rv_std dist)).2)
              then tail_color else center_color).
Proof.
  plot_stages. intros [= <- <- <-]. exists gen, dist. eexists. exists xs, ys.
  rewrite axes_of_newest. split; [done|]. split; [done|]. split; [done|].
  split; [done|]. split.
  - cbn [collections set_ylim drawn fills]. repeat constructor; cbn; by rewrite ?length_fmap.
  - intros i v Hv. by apply seen_color_fills.
Qed.

(** X9. On the axes of a successful call the samples and the density
    values are exactly [n] each, in any arithmetic; with two samples or more
    the last sample is the upper end of the domain itself, [mean + 4 * std]
    as [calculate_xrange] computed it. *)
Theorem plot_grid_end distribution n tail_color center_color params st fig ax st' :
  plot_tail_events stats distribution n tail_color center_color params st
    = (inr (fig, ax), st') ->
  exists gen dist a xs ys,
    resolve distribution = inr gen ∧ stats gen params = inr dist ∧
    axes_of st' ax = Some a ∧ sampled_xy a = Some (xs, ys) ∧
    length xs = Z.to_nat n ∧ length ys = Z.to_nat n ∧
    ((2 <= n)%Z -> last xs = Some (calculate_xrange (rv_mean dist) (rv_std dist)).2).
Proof.
  plot_stages. intros [= <- <- <-]. exists gen, dist. eexists. exists xs, ys.
  rewrite axes_of_newest. split; [done|]. split; [done|]. split; [done|].
  split; [done|].
  pose proof (sample_density_inr _ _ _ _ _ _ Es) as (_ & Hlen & ->).
  split; [done|]. split; [by rewrite length_fmap|].
  intros Hn. revert Es. unfold sample_density.
  destruct (linspace _ _ n) as [?|x] eqn:El; [done|]. intros [= ->].
  by eapply linspace_last.
Qed.
End Plot_more.

(** ** In exact arithmetic *)

Section Exact_more.
Local Open Scope Q_scope.

(** X10. The tails are placed evenly about the mean and so is the domain,
    one standard deviation wider on each side: the tails are [6 sigma]
    apart, the ends of the domain [8 sigma]. *)
Theorem calculators_geometry (mu sigma : Q) :
  let '(lower, upper) := calculate_tails mu sigma in
  let '(x_min, x_max) := calculate_xrange mu sigma in
  mu - lower == upper - mu ∧ mu - x_min == x_max - mu ∧
  lower - x_min == sigma ∧ x_max - upper == sigma ∧
  upper - lower == 6 * sigma ∧ x_max - x_min == 8 * sigma.
Proof.
  unfold calculate_xrange, calculate_tails.
  cbn [py_sub py_add py_mul of_int Q_PyNum].
  change (inject_Z 3) with 3. change (inject_Z 4) with 4. repeat split; ring.
Qed.
End Exact_more.

(** ** The tails at the ends *)

Section Ends.
Variable stats : rv_continuous -> kwargs float -> exn + rv_frozen float.
Local Open Scope py_scope.

(** X13. In binary64, on the axes of a successful call with two samples or
    more, the last sample is in the right tail exactly when the upper tail
    boundary is below the upper end of the domain, both as computed. When the
    step of the grid is a finite number other than zero and the lower end of
    the domain is a number, the first sample is in the left tail exactly when
    the lower end of the domain is below the lower tail boundary and not
    above the upper one. *)
Theorem end_samples_in_tails
    distribution n tail_color center_color params st fig ax st' :
  plot_tail_events stats distribution n tail_color center_color params st
    = (inr (fig, ax), st') ->
  (2 <= n)%Z ->
  exists gen dist a,
    resolve distribution = inr gen ∧ stats gen params = inr dist ∧
    axes_of st' ax = Some a ∧
    let tails := calculate_tails (rv_mean dist) (rv_std dist) in
    let dom := calculate_xrange (rv_mean dist) (rv_std dist) in
    let step := (dom.2 - dom.1) / lit (n - 1) in
    (top_fill (collections a) (Z.to_nat n - 1) = Some right_tail
       <-> (tails.2 <? dom.2) = true) ∧
    ((step =? lit 0) = false -> (step - step =? lit 0) = true ->
     (dom.1 =? dom.1) = true ->
     (top_fill (collections a) 0 = Some left_tail
        <-> (dom.1 <? tails.1) = true ∧ (tails.2 <? dom.1) = false)).
Proof.
  plot_stages. intros [= <- <- <-] Hn. exists gen, dist. eexists.
  rewrite axes_of_newest. split; [done|]. split; [done|]. split; [done|].
  cbn zeta. cbn [collections set_ylim drawn].
  revert Es. unfold sample_density.
  destruct (linspace _ _ n) as [?|x] eqn:El; [done|]. intros [= -> <-].
  pose proof (linspace_length _ _ _ _ El) as [_ Hlen].
  pose proof (linspace_last _ _ _ _ Hn El) as Hlast.
  rewrite last_lookup, Hlen in Hlast.
  replace (pred (Z.to_nat n)) with (Z.to_nat n - 1)%nat in Hlast by lia.
  split.
  - rewrite (top_fill_fills _ _ _ _ _ _ _ Hlast).
    unfold right_tail, left_tail, center_region.
    destruct (_ <? _); [done|]. destruct (_ <? _); split; done.
  - intros Hne Hfin Hx.
    pose proof (linspace_lookup _ _ _ _ 0%nat Hn El ltac:(lia)) as H0.
    rewrite Hne in H0. rewrite (top_fill_fills _ _ _ _ _ _ _ H0).
    pose proof (first_step _ _ Hfin Hx) as Hv.
    cbn [py_lt py_add py_mul of_int float_PyNum] in *.
    change (float_of_Z (Z.of_nat 0)) with (float_of_Z 0).
    rewrite (ltb_eqb_r _ _ _ Hv), (ltb_eqb_l _ _ _ Hv).
    unfold right_tail, left_tail, center_region.
    destruct (_ <? _)%float; [split; [done | by intros [_ ?]]|].
    destruct (_ <? _)%float; split; try done. by intros [? _].
Qed.
End Ends.

(** ** The script *)

Section Script_more.
Context {A : Type} `{PyNum A}.
Variable stats : rv_continuous -> kwargs A -> exn + rv_frozen A.
Local Open Scope py_scope.

(** The script, step by step. *)
Lemma main_run (argv : list string) (w : World A) :
  main stats argv w =
  match argv !! 1%nat with
  | None => (inl (Exn "IndexError" "list index out of range"), w)
  | Some distribution =>
    let out := stdout w ++ ["Creating plot for " +:+ distribution +:+ " distribution."] in
    match plot_tail_events stats distribution 100 "#ff0000" "#e6ffff" ∅ (figures w) with
    | (inl e, st) => (inl e, MkWorld st out (saved w))
    | (inr _, st) =>
      let fig := default (MkFigure None empty_axes) (last st) in
      (inr (), MkWorld (match st with [] => [fig] | _ => st end) out
                       (saved w ++ [(distribution, fig)]))
    end
  end.
Proof.
  unfold main, mbind, prog_bind, prog_lift, list_getitem, with_pyplot, py_print.
  destruct (argv !! 1%nat) as [d|]; [|done]. cbn [figures stdout saved].
  destruct (plot_tail_events _ _ _ _ _ _ _) as [[e|[f a]] st]; [reflexivity|].
  unfold plt_savefig. cbn [figures stdout saved]. by destruct st.
Qed.

(** A call that succeeds leaves one figure more. *)
Lemma plot_success_registry distribution n tail_color center_color params st fig ax st' :
  plot_tail_events stats distribution n tail_color center_color params st
    = (inr (fig, ax), st') ->
  exists new, st' = st ++ [new].
Proof. plot_stages. intros [= <- <- <-]. eauto. Qed.

(** A hundred samples are never too few. *)
Lemma sample_density_default (dist : rv_frozen A) (x_min x_max : A) :
  exists xs ys ymax,
    sample_density dist x_min x_max 100 = inr (xs, ys) ∧ py_max ys = inr ymax ∧
    length xs = 100%nat.
Proof.
  unfold sample_density.
  destruct (linspace x_min x_max 100) as [?|xs] eqn:El; [apply linspace_inl in El; lia|].
  pose proof (linspace_length _ _ _ _ El) as [_ Hlen].
  destruct (py_max (rv_pdf dist <$> xs)) as [?|ymax] eqn:Em.
  { apply py_max_inl, (f_equal length) in Em.
    rewrite length_fmap, Hlen in Em. discriminate. }
  by exists xs, (rv_pdf dist <$> xs), ymax.
Qed.

(** X15. Run without an argument, the script stops at [sys.argv[1]] with an
    index error: nothing is printed, drawn or saved. *)
Theorem main_without_argument (argv : list string) (w : World A) :
  (length argv <= 1)%nat ->
  main stats argv w = (inl (Exn "IndexError" "list index out of range"), w).
Proof.
  intros Hlen. rewrite main_run. by rewrite lookup_ge_None_2.
Qed.


(** X17. Run with a name of the dictionary whose generator takes no
    parameters amiss, the script succeeds: it prints one line, opens one
    figure after those that were open, and saves that figure under the name
    of the distribution. The figure is the plot of a hundred samples in the
    default colours, with its limits. *)
Theorem main_saves_the_plot (argv : list string) (w : World A) distribution gen dist :
  argv !! 1%nat = Some distribution ->
  resolve distribution = inr gen -> stats gen ∅ = inr dist ->
  exists xs ys ymax fig,
    sample_density dist (calculate_xrange (rv_mean dist) (rv_std dist)).1
                        (calculate_xrange (rv_mean dist) (rv_std dist)).2 100
      = inr (xs, ys) ∧
    py_max ys = inr ymax ∧ length xs = 100%nat ∧
    fig = MkFigure (Some (9, 6)%Z)
            (set_ylim (lit 0) (lit 12 / lit 10 * ymax)
               (drawn distribution "#ff0000" "#e6ffff" (rv_mean dist)
                      (calculate_tails (rv_mean dist) (rv_std dist)) xs ys)) ∧
    main stats argv w
    = (inr (),
       MkWorld (figures w ++ [fig])
               (stdout w ++ ["Creating plot for " +:+ distribution +:+ " distribution."])
               (saved w ++ [(distribution, fig)])).
Proof.
  intros Harg Hr Hc.
  destruct (sample_density_default dist
              (calculate_xrange (rv_mean dist) (rv_std dist)).1
              (calculate_xrange (rv_mean dist) (rv_std dist)).2)
    as (xs & ys & ymax & Hs & Hm & Hlen).
  exists xs, ys, ymax. eexists. split; [done|]. split; [done|]. split; [done|].
  split; [reflexivity|].
  rewrite main_run, Harg, plot_tail_events_run, Hr, Hc. cbn zeta. rewrite Hs, Hm.
  cbn zeta. rewrite last_snoc. cbn [default from_option].
  by destruct (figures w).
Qed.

(** X18. The script saves a file only when it succeeds, and then one file
    only: after a failure the files are those there were. *)
Theorem main_saves_on_success_only (argv : list string) (w w' : World A) r :
  main stats argv w = (r, w') ->
  match r with
  | inl _ => saved w' = saved w
  | inr _ => exists fig, saved w' = saved w ++ [(default "" (argv !! 1%nat), fig)] ∧
                         last (figures w') = Some fig
  end.
Proof.
  rewrite main_run. destruct (argv !! 1%nat) as [d|]; [|by intros [= <- <-]].
  cbn zeta.
  destruct (plot_tail_events _ _ _ _ _ _ _) as [[e|[f a]] st] eqn:Ep;
    intros [= <- <-]; [done|].
  apply plot_success_registry in Ep as [fig ->].
  cbn [saved figures default from_option]. rewrite last_snoc. cbn [default from_option].
  exists fig. split; [done|].
  destruct (figures w ++ [fig]) eqn:E; [by destruct (figures w)|].
  by rewrite <- E, last_snoc.
Qed.
End Script_more.

(** ** Not a number *)

Lemma ltb_not_nan (x y : float) :
  (x <? y)%float = true -> (x =? x)%float = true ∧ (y =? y)%float = true.
Proof.
  rewrite ltb_spec, !FloatAxioms.eqb_spec. unfold SFltb.
  destruct (Prim2SF x) as [sx|sx| |sx mx ex] eqn:Ex,
           (Prim2SF y) as [sy|sy| |sy my ey] eqn:Ey;
    try discriminate; intros _; split; by apply SFeqb_refl.
Qed.

Lemma calculate_tails_nan (mu sigma : float) :
  (mu =? mu)%float = false ∨ (sigma =? sigma)%float = false ->
  let '(lower, upper) := calculate_tails mu sigma in
  (lower =? lower)%float = false ∧ (upper =? upper)%float = false.
Proof.
  assert (forall x, (x =? x)%float = false -> Prim2SF x = S754_nan) as Hnan.
  { intros x. rewrite FloatAxioms.eqb_spec. intros Hx.
    destruct (Prim2SF x) eqn:E; try done; by rewrite SFeqb_refl in Hx. }
  assert (Prim2SF (float_of_Z 3) = S754_finite false 6755399441055744 (-51)) as H3
    by (vm_compute; reflexivity).
  unfold calculate_tails. cbn [py_sub py_add py_mul of_int float_PyNum].
  intros [Hm%Hnan | Hs%Hnan];
    rewrite !FloatAxioms.eqb_spec, sub_spec, add_spec, mul_spec, ?Hm, ?Hs, ?H3.
  - by destruct (SF64mul _ _).
  - cbn. by destruct (Prim2SF mu).
Qed.

(** X19. In binary64, when the mean or the standard deviation is not a
    number (SciPy's answer to parameters it cannot use), neither are the
    tails, and no sample lies below the lower one or above the upper one:
    nothing is marked as a tail. *)
Theorem nan_marks_no_tail (mu sigma v : float) :
  (mu =? mu)%py = false ∨ (sigma =? sigma)%py = false ->
  let '(lower, upper) := calculate_tails mu sigma in
  (v <? lower)%py = false ∧ (v >? upper)%py = false.
Proof.
  intros Hnan. pose proof (calculate_tails_nan mu sigma Hnan) as Ht.
  destruct (calculate_tails mu sigma) as [lower upper]. destruct Ht as [Hl Hu].
  cbn [py_lt float_PyNum]. split; apply not_true_iff_false; intros Hc%ltb_not_nan;
    destruct Hc; congruence.
Qed.

(** ** The further properties at work *)

(** Minus three samples. *)
Lemma plot_negative_count_minus_3 :
  plot_tail_events (A:=Q) toy_stats "normal" (-3) "#ff0000" "#e6ffff" ∅ []
  = (inl (ValueError "Number of samples, -3, must be non-negative."), []).
Proof.
  apply (plot_negative_count (A:=Q) toy_stats "normal" (-3) "#ff0000" "#e6ffff" ∅ []
           norm (toy_frozen 0%Q 1%Q)); [by vm_compute | by vm_compute | lia].
Defined.

(** No sample, one figure already open. *)
Lemma plot_zero_count_after_a_figure :
  plot_tail_events (A:=Q) toy_stats "uniform" 0 "#ff0000" "#e6ffff" ∅
                   [MkFigure None empty_axes]
  = (inl (ValueError "max() arg is an empty sequence"),
     [MkFigure None empty_axes;
      MkFigure (Some (9, 6)%Z)
        (drawn "uniform" "#ff0000" "#e6ffff" 0%Q
               (calculate_tails 0%Q 1%Q) [] [])]).
Proof.
  apply (plot_zero_count (A:=Q) toy_stats "uniform" "#ff0000" "#e6ffff" ∅
           [MkFigure None empty_axes] uniform (toy_frozen 0%Q 1%Q));
    by vm_compute.
Defined.

(** A SciPy that knows the normal distribution only serves a normal plot as
    well. *)
Lemma plot_calls_generator_normal :
  plot_tail_events (A:=Q) toy_stats "normal" 9 "#ff0000" "#e6ffff" ∅ []
  = plot_tail_events (A:=Q)
      (λ gen params, match gen with
                     | norm => toy_stats gen params
                     | _ => inl (Exn "NotImplementedError" "")
                     end)
      "normal" 9 "#ff0000" "#e6ffff" ∅ [].
Proof.
  apply (plot_calls_generator (A:=Q) toy_stats _ "normal" norm 9 "#ff0000" "#e6ffff" ∅ []).
  - apply elem_of_cons. by left.
  - reflexivity.
Defined.

(** The lines, the labels and the colours of nine samples of the standard
    normal. *)
Lemma plot_reference_lines_std_normal :
  exists gen dist a,
    resolve "normal" = inr gen ∧ toy_stats (A:=Q) gen ∅ = inr dist ∧
    axes_of (plot_tail_events (A:=Q) toy_stats "normal" 9 "#ff0000" "#e6ffff" ∅ []).2 0
      = Some a ∧
    lines a =
      [ Line (calculate_tails (rv_mean dist) (rv_std dist)).1 "black" "-" 1;
        Line (calculate_tails (rv_mean dist) (rv_std dist)).2 "black" "-" 1;
        Line (rv_mean dist) "black" "--" 1 ].
Proof.
  apply (plot_reference_lines (A:=Q) toy_stats "normal" 9 "#ff0000" "#e6ffff" ∅ [] 0 0).
  by vm_compute.
Defined.

Lemma plot_labels_std_normal :
  exists a,
    (plot_tail_events (A:=Q) toy_stats "normal" 9 "#ff0000" "#e6ffff" ∅ []).2 !! 0%nat
      = Some (MkFigure (Some (9, 6)%Z) a) ∧
    axes_of (plot_tail_events (A:=Q) toy_stats "normal" 9 "#ff0000" "#e6ffff" ∅ []).2 0
      = Some a ∧
    ax_title a = Some (MkText "Tail events for normal distribution" 16) ∧
    ax_xlabel a = Some (MkText "x" 14) ∧ ax_ylabel a = Some (MkText "f(x)" 14) ∧
    xtick_label_fontsize a = Some 14%Z.
Proof.
  apply (plot_labels (A:=Q) toy_stats "normal" 9 "#ff0000" "#e6ffff" ∅ [] 0 0).
  by vm_compute.
Defined.

Lemma plot_colours_std_normal :
  exists gen dist a xs ys,
    resolve "normal" = inr gen ∧ toy_stats (A:=float) gen ∅ = inr dist ∧
    axes_of (plot_tail_events (A:=float) toy_stats "normal" 9 "#ff0000" "#e6ffff" ∅ []).2 0
      = Some a ∧ sampled_xy a = Some (xs, ys) ∧
    Forall (λ c, poly_x c = xs ∧ poly_y2 c = ys ∧ poly_y1 c = lit 0 ∧
                 poly_interpolate c = true ∧
                 from_option (λ mask, length mask = length xs) True (poly_where c))
           (collections a) ∧
    forall i v, xs !! i = Some v ->
      seen_color (collections a) i
      = Some (if ((v <? (calculate_tails (rv_mean dist) (rv_std dist)).1)
                  || (v >? (calculate_tails (rv_mean dist) (rv_std dist)).2))%py
              then "#ff0000" else "#e6ffff").
Proof.
  apply (plot_colours (A:=float) toy_stats "normal" 9 "#ff0000" "#e6ffff" ∅ [] 0 0).
  by vm_compute.
Defined.

Example colours_of_nine_samples :
  (λ i, seen_color
          (fills "#ff0000" "#e6ffff" (calculate_tails 0%float 1%float)
                 [(-4)%float; (-3)%float; (-2)%float; (-1)%float; 0%float;
                  1%float; 2%float; 3%float; 4%float] []) i) <$> seq 0 9
  = Some <$> ["#ff0000"; "#e6ffff"; "#e6ffff"; "#e6ffff"; "#e6ffff";
              "#e6ffff"; "#e6ffff"; "#e6ffff"; "#ff0000"].
Proof. vm_compute. reflexivity. Qed.

(** Nine samples in binary64 of the stand-in distribution with mean [0] and
    standard deviation [1]: the call succeeds, so the name is known, the
    constructor was content and the count is at least one. *)
Lemma plot_succeeds_only_if_nine_samples :
  exists gen dist,
    resolve "normal" = inr gen ∧ toy_stats (A:=float) gen ∅ = inr dist ∧ (1 <= 9)%Z.
Proof.
  apply (plot_succeeds_only_if (A:=float) toy_stats "normal" 9 "#ff0000" "#e6ffff" ∅ [] 0 0
           (plot_tail_events (A:=float) toy_stats "normal" 9 "#ff0000" "#e6ffff" ∅ []).2).
  by vm_compute.
Defined.

(** Nine of each, and the last sample is [4]. *)
Lemma plot_grid_end_nine_samples :
  exists gen dist a xs ys,
    resolve "normal" = inr gen ∧ toy_stats (A:=float) gen ∅ = inr dist ∧
    axes_of (plot_tail_events (A:=float) toy_stats "normal" 9 "#ff0000" "#e6ffff" ∅ []).2 0
      = Some a ∧ sampled_xy a = Some (xs, ys) ∧
    length xs = 9%nat ∧ length ys = 9%nat ∧ last xs = Some 4%float.
Proof.
  destruct (plot_grid_end (A:=float) toy_stats "normal" 9 "#ff0000" "#e6ffff" ∅ [] 0 0
              (plot_tail_events (A:=float) toy_stats "normal" 9 "#ff0000" "#e6ffff" ∅ []).2)
    as (gen & dist & a & xs & ys & Hr & Hc & Ha & Hxy & Hx & Hy & Hl); [by vm_compute|].
  exists gen, dist, a, xs, ys. repeat (split; [done|]).
  rewrite Hl by lia.
  vm_compute in Hr. injection Hr as <-. vm_compute in Hc. injection Hc as <-.
  vm_compute. reflexivity.
Defined.

(** Both tails show at the ends of nine samples. *)
Lemma end_samples_in_tails_nine_samples :
  exists a,
    axes_of (plot_tail_events (A:=float) toy_stats "normal" 9 "#ff0000" "#e6ffff" ∅ []).2 0
      = Some a ∧
    top_fill (collections a) 8 = Some right_tail ∧
    top_fill (collections a) 0 = Some left_tail.
Proof.
  destruct (end_samples_in_tails toy_stats "normal" 9 "#ff0000" "#e6ffff" ∅ [] 0 0
              (plot_tail_events (A:=float) toy_stats "normal" 9 "#ff0000" "#e6ffff" ∅ []).2)
    as (gen & dist & a & Hr & Hc & Ha & Hlast & Hfirst); [by vm_compute | lia |].
  vm_compute in Hr. injection Hr as <-. vm_compute in Hc. injection Hc as <-.
  exists a. split; [done|]. split.
  - apply Hlast. by vm_compute.
  - apply Hfirst; by vm_compute.
Defined.

(** With a mean of [1e17] and standard deviation [1] the tails and the ends
    of the domain all round to the mean: no sample is in a tail. *)
Example tails_hidden_by_rounding :
  calculate_tails 0x1.6345785d8ap+56%float 1%float
    = calculate_xrange 0x1.6345785d8ap+56%float 1%float ∧
  (λ a, top_fill (collections a) <$> seq 0 5)
    <$> axes_of (plot_tail_events (A:=float) toy_stats "normal" 5 "#ff0000" "#e6ffff"
                   {[ "loc" := 0x1.6345785d8ap+56%float ]} []).2 0
  = Some (Some <$> [center_region; center_region; center_region; center_region;
                    center_region]).
Proof. vm_compute. split; reflexivity. Qed.

(** The script, from an empty world. *)
Lemma main_without_argument_alone :
  main (A:=Q) toy_stats ["tail_events_distribution_graphs.py"] (MkWorld [] [] [])
  = (inl (Exn "IndexError" "list index out of range"), MkWorld [] [] []).
Proof. apply main_without_argument. simpl. lia. Defined.


Lemma main_saves_the_plot_exponential :
  exists xs ys ymax fig,
    sample_density (toy_frozen 0%Q 1%Q) (calculate_xrange 0%Q 1%Q).1
                   (calculate_xrange 0%Q 1%Q).2 100 = inr (xs, ys) ∧
    py_max ys = inr ymax ∧ length xs = 100%nat ∧
    fig = MkFigure (Some (9, 6)%Z)
            (set_ylim (lit 0) (lit 12 / lit 10 * ymax)%py
               (drawn "exponential" "#ff0000" "#e6ffff" 0%Q
                      (calculate_tails 0%Q 1%Q) xs ys)) ∧
    main (A:=Q) toy_stats ["tail_events_distribution_graphs.py"; "exponential"]
         (MkWorld [] [] [])
    = (inr (),
       MkWorld [fig] ["Creating plot for exponential distribution."]
               [("exponential", fig)]).
Proof.
  apply (main_saves_the_plot (A:=Q) toy_stats
           ["tail_events_distribution_graphs.py"; "exponential"] (MkWorld [] [] [])
           "exponential" expon (toy_frozen 0%Q 1%Q)); by vm_compute.
Defined.

Lemma main_saves_on_success_only_gamma :
  saved (main (A:=Q) toy_stats ["tail_events_distribution_graphs.py"; "gamma"]
              (MkWorld [] [] [("normal.png", MkFigure None empty_axes)])).2
  = [("normal.png", MkFigure None empty_axes)].
Proof.
  exact (main_saves_on_success_only (A:=Q) toy_stats
           ["tail_events_distribution_graphs.py"; "gamma"]
           (MkWorld [] [] [("normal.png", MkFigure None empty_axes)])
           _ (inl (AssertionError assert_message)) eq_refl).
Defined.

(** A standard deviation that is not a number. *)
Lemma nan_marks_no_tail_std :
  let '(lower, upper) := calculate_tails 0%float nan in
  (1 <? lower)%float = false ∧ (upper <? 1)%float = false.
Proof. apply (nan_marks_no_tail 0%float nan 1%float). by right. Defined.
